(** * SentimentAnalysis.py: a shallow embedding and its verified properties

    The development follows the classes of [SentimentAnalysis.py]:
    [ReviewScraper] (concurrent page scraping, JSON snapshot),
    [SentimentAnalyzer] (lexicon scoring), [ReportGenerator] (the printed
    reports).  Module [Py] holds the part of the Python runtime the program
    relies on: exceptions, [str] methods, insertion-ordered [dict], true
    division and the [.4%] format. *)

From Stdlib Require Import ZArith QArith Qround Qabs Lqa List String Ascii Bool Lia.
From Stdlib Require Import Permutation DecimalString.
From Stdlib Require DecimalPos DecimalZ.
Import ListNotations.

Set Warnings "-register-all,-notation-for-abbreviation".


Local Open Scope list_scope.
Local Open Scope string_scope.
Local Open Scope Z_scope.

(* ================================================================== *)
(** * The Python runtime the program uses *)
(* ================================================================== *)

Module Py.

(** Exceptions the program can meet. *)
Inductive exn : Type :=
| IndexError
| ZeroDivisionError
| TypeError
| KeyError
| RequestException.

(** A Python call either returns a value or raises. *)
Inductive result (A : Type) : Type :=
| Return (a : A)
| Raise (e : exn).
Arguments Return {A} a.
Arguments Raise {A} e.

Definition bind {A B} (m : result A) (f : A -> result B) : result B :=
  match m with
  | Return a => f a
  | Raise e => Raise e
  end.

Definition raised {A} (m : result A) : bool :=
  match m with Return _ => false | Raise _ => true end.

(** ** Strings

    A [str] is modelled as a [string] whose characters are the code points
    below 256. *)

Definition nl : string := String (ascii_of_nat 10) EmptyString.
Definition tab : string := String (ascii_of_nat 9) EmptyString.

(** [str.isspace] on the code points below 256: TAB..CR, FS..US, space,
    NEL and the no-break space. *)
Definition isspace (c : ascii) : bool :=
  let n := nat_of_ascii c in
  ((9 <=? n) && (n <=? 13) || (28 <=? n) && (n <=? 32)
   || (n =? 133) || (n =? 160))%nat.

Fixpoint lstrip (s : string) : string :=
  match s with
  | EmptyString => EmptyString
  | String c s' => if isspace c then lstrip s' else s
  end.

Fixpoint rstrip (s : string) : string :=
  match s with
  | EmptyString => EmptyString
  | String c s' =>
      match rstrip s' with
      | EmptyString => if isspace c then EmptyString else String c EmptyString
      | r => String c r
      end
  end.

(** [s.strip()] *)
Definition strip (s : string) : string := rstrip (lstrip s).

(** [s.split(sep)] for a one-character separator: never the empty list. *)
Fixpoint split (sep : ascii) (s : string) : list string :=
  match s with
  | EmptyString => [EmptyString]
  | String c s' =>
      if Ascii.eqb c sep then EmptyString :: split sep s'
      else match split sep s' with
           | [] => [String c EmptyString]
           | w :: ws => String c w :: ws
           end
  end.

(** [l[i]] for a non-negative index [i]. *)
Definition index {A} (l : list A) (i : nat) : result A :=
  match nth_error l i with
  | Some a => Return a
  | None => Raise IndexError
  end.

(** [l[i]] for any integer index: a negative index counts from the end. *)
Definition getitem {A} (l : list A) (i : Z) : result A :=
  let n := Z.of_nat (List.length l) in
  if (0 <=? i) && (i <? n) then index l (Z.to_nat i)
  else if (- n <=? i) && (i <? 0) then index l (Z.to_nat (i + n))
  else Raise IndexError.

(** [str(n)] for an [int]. *)
Definition str_of_int (z : Z) : string :=
  NilZero.string_of_int (Z.to_int z).

(** [str(x)] for an optional string: [None] prints as its name. *)
Definition str_of_opt (o : option string) : string :=
  match o with
  | Some s => s
  | None => "None"
  end.

(** Truthiness of a string or [None]: only a non-empty string is true. *)
Definition truthy_str (o : option string) : bool :=
  match o with
  | Some EmptyString => false
  | Some _ => true
  | None => false
  end.

(** [range(lo, hi)] *)
Definition range (lo hi : Z) : list Z :=
  map (fun i => lo + Z.of_nat i) (seq 0 (Z.to_nat (hi - lo))).

(** [enumerate(l, start)] *)
Fixpoint enumerate {A} (start : Z) (l : list A) : list (Z * A) :=
  match l with
  | [] => []
  | a :: l' => (start, a) :: enumerate (start + 1) l'
  end.

(** [zip(a, b)]: stops at the shorter argument. *)
Fixpoint zip {A B} (a : list A) (b : list B) : list (A * B) :=
  match a, b with
  | x :: a', y :: b' => (x, y) :: zip a' b'
  | _, _ => []
  end.

(** ** Dictionaries

    A [dict] keeps its keys in insertion order; assigning to a key that is
    present replaces the value and leaves the key where it is. *)
Section Dict.
Context {K V : Type}.
Variable eqb : K -> K -> bool.

Definition dict : Type := list (K * V).

Fixpoint dict_get (k : K) (d : dict) : option V :=
  match d with
  | [] => None
  | (k', v) :: d' => if eqb k k' then Some v else dict_get k d'
  end.

Fixpoint dict_set (k : K) (v : V) (d : dict) : dict :=
  match d with
  | [] => [(k, v)]
  | (k', v') :: d' =>
      if eqb k k' then (k', v) :: d' else (k', v') :: dict_set k v d'
  end.

(** [dict(items)] and dictionary comprehensions: later bindings win. *)
Definition dict_of_items (items : list (K * V)) : dict :=
  fold_left (fun d kv => dict_set (fst kv) (snd kv) d) items [].

(** [d.update(other)] *)
Definition dict_update (d other : dict) : dict :=
  fold_left (fun acc kv => dict_set (fst kv) (snd kv) acc) other d.

Definition dict_keys (d : dict) : list K := map fst d.
End Dict.
Arguments dict : clear implicits.

(** Running a fallible function over a list, left to right, stopping at the
    first exception (a comprehension whose element expression can raise). *)
Fixpoint mapM {A B} (f : A -> result B) (l : list A) : result (list B) :=
  match l with
  | [] => Return []
  | a :: l' =>
      match f a with
      | Raise e => Raise e
      | Return b =>
          match mapM f l' with
          | Raise e => Raise e
          | Return bs => Return (b :: bs)
          end
      end
  end.

(** The keys the titles dictionary sees: [int] keys from the scraper,
    [str] keys from [json.load]. *)
Inductive key : Type :=
| KInt (z : Z)
| KStr (s : string).

Definition key_eqb (a b : key) : bool :=
  match a, b with
  | KInt x, KInt y => Z.eqb x y
  | KStr x, KStr y => String.eqb x y
  | _, _ => false
  end.

(** [str(k)] for a key. *)
Definition str_of_key (k : key) : string :=
  match k with
  | KInt z => str_of_int z
  | KStr s => s
  end.

(** ** Floats

    A finite double is modelled by the rational it denotes.  [fl] is the
    rounding of a real result to the nearest double; the program's
    properties below hold for every rounding, so it is a parameter. *)
Section Float.
Variable fl : Q -> Q.

(** [a / b] on [int]s *)
Definition truediv (a b : Z) : result Q :=
  if b =? 0 then Raise ZeroDivisionError
  else Return (fl (inject_Z a / inject_Z b)%Q).

(** [x / n] for a float [x] and an [int] [n] *)
Definition fdiv (x : Q) (n : Z) : result Q :=
  if n =? 0 then Raise ZeroDivisionError
  else Return (fl (x / inject_Z n)%Q).

(** [sum(xs)] for floats: the accumulator starts at the integer 0. *)
Definition fsum (xs : list Q) : Q :=
  fold_left (fun acc x => fl (acc + x)%Q) xs 0%Q.
End Float.

(** [x > y] and [x < y] on floats. *)
Definition float_gt (x y : Q) : bool :=
  match (x ?= y)%Q with Gt => true | _ => false end.

Definition float_lt (x y : Q) : bool :=
  match (x ?= y)%Q with Lt => true | _ => false end.

(** The double written [0.05]: 3602879701896397 / 2^56. *)
Definition double_0_05 : Q := 3602879701896397 # 72057594037927936.

(** Rounding to the nearest integer, ties to even, as the ['f'] format
    rounds the exact value of a double. *)
Definition round_half_even (q : Q) : Z :=
  let f := Qfloor q in
  let r := (q - inject_Z f)%Q in
  match (r ?= 1 # 2)%Q with
  | Lt => f
  | Gt => f + 1
  | Eq => if Z.even f then f else f + 1
  end.

Definition pad4 (n : Z) : string :=
  let s := str_of_int n in
  match String.length s with
  | 1%nat => "000" ++ s
  | 2%nat => "00" ++ s
  | 3%nat => "0" ++ s
  | _ => s
  end.

(** ["{:.4f}".format(y)] *)
Definition format_f4 (y : Q) : string :=
  let n := round_half_even (Qabs y * inject_Z 10000)%Q in
  (if Qlt_le_dec y 0 then "-" else "")
    ++ str_of_int (n / 10000) ++ "." ++ pad4 (n mod 10000).

(** ["{:.4%}".format(x)]: the float is multiplied by 100, printed in fixed
    notation with four decimals and followed by a percent sign. *)
Definition format_percent4 (fl : Q -> Q) (x : Q) : string :=
  format_f4 (fl (x * inject_Z 100)%Q) ++ "%".

(** ** Printing

    A computation that prints returns the lines printed so far together
    with its result; what was printed before an exception is kept. *)
Definition io (A : Type) : Type := list string * result A.

Definition io_ret {A} (a : A) : io A := ([], Return a).

Definition io_bind {A B} (m : io A) (f : A -> io B) : io B :=
  match m with
  | (out, Return a) => let (out', r) := f a in ((out ++ out')%list, r)
  | (out, Raise e) => (out, Raise e)
  end.

Definition print (s : string) : io unit := ([s], Return tt).

Definition lift {A} (r : result A) : io A := ([], r).

Fixpoint io_for {A} (l : list A) (body : A -> io unit) : io unit :=
  match l with
  | [] => io_ret tt
  | a :: l' => io_bind (body a) (fun _ => io_for l' body)
  end.

(** ** Punctuation *)

(** The characters of [string.punctuation]. *)
Definition is_punctuation (c : ascii) : bool :=
  let n := nat_of_ascii c in
  ((33 <=? n) && (n <=? 47) || (58 <=? n) && (n <=? 64)
   || (91 <=? n) && (n <=? 96) || (123 <=? n) && (n <=? 126))%nat.

(** [s.translate(str.maketrans('', '', string.punctuation))]: the
    punctuation characters are deleted. *)
Fixpoint remove_punctuation (s : string) : string :=
  match s with
  | EmptyString => EmptyString
  | String c s' =>
      if is_punctuation c then remove_punctuation s'
      else String c (remove_punctuation s')
  end.

End Py.

Import Py.

Declare Scope py_scope.
Notation "x <- m ;; k" := (Py.bind m (fun x => k))
  (at level 61, m at next level, right associativity) : py_scope.
Notation "x <~ m ;; k" := (Py.io_bind m (fun x => k))
  (at level 61, m at next level, right associativity) : py_scope.
Notation "m ;;; k" := (Py.io_bind m (fun _ => k))
  (at level 61, right associativity) : py_scope.

(* ================================================================== *)
(** * class ReviewScraper *)
(* ================================================================== *)

Module ReviewScraper.
Local Open Scope py_scope.

(** The progress messages that the scraper and the snapshot functions print
    are left out: they do not bear on the values returned. *)

(** What the program reads of a parsed page: the text of the first
    [span] with [data-hook="rating-out-of-text"] if there is one, and the
    texts of the [a.review-title] and [span data-hook="review-body"]
    elements in document order. *)
Record soup : Type := {
  rating_out_of_text : option string;
  review_title : list string;
  review_body : list string
}.

Record response : Type := {
  status_code : Z;
  content : soup
}.

(** One page's result: [(page_num, review_titles, review_contents,
    star_rating)], the last three being [None] when there is no soup. *)
Definition page_result : Type :=
  (Z * option (dict Z string) * option (list string) * option string)%type.

(** The tuple [(titles, reviews, product_star_rating)]. *)
Record corpus : Type := {
  titles : dict key string;
  reviews : list string;
  product_star_rating : option string
}.

Definition empty_corpus : corpus :=
  {| titles := []; reviews := []; product_star_rating := None |}.

Section Scraper.
(** [self.product], [self.product_id] *)
Variables product product_id : string.

(** [requests.get] through the access layer, by target URL: it raises or
    answers with a status code and a document. *)
Variable requests_get : string -> result response.

Definition current_url (page_num : Z) : string :=
  "https://www.amazon.com/" ++ product ++ "/product-reviews/" ++ product_id
    ++ "/ref=cm_cr_getr_d_paging_btm_prev_" ++ str_of_int page_num
    ++ "?ie=UTF8&reviewerType=all_reviews&pageNumber=" ++ str_of_int page_num.

Definition get_soup (url : string) : result (option soup) :=
  response <- requests_get url ;;
  if status_code response =? 200 then Return (Some (content response))
  else Return None.

(** [item.get_text().strip().split('\n')[1]] *)
Definition title_text (text : string) : result string :=
  index (split (ascii_of_nat 10) (strip text)) 1.

(** [{i + 1: ... for i, item in enumerate(soup.find_all("a", "review-title"))}] *)
Definition review_titles_of (s : soup) : result (dict Z string) :=
  items <- mapM (fun it => t <- title_text (snd it) ;; Return (fst it + 1, t))
                (enumerate 0 (review_title s)) ;;
  Return (dict_of_items Z.eqb items).

Definition scrape_page (page_num : Z) : result page_result :=
  soup <- get_soup (current_url page_num) ;;
  match soup with
  | None => Return (page_num, None, None, None)
  | Some soup =>
      let star_rating :=
        if page_num =? 1 then
          match rating_out_of_text soup with
          | Some text => Some (strip text)
          | None => Some "Not found"
          end
        else None in
      review_titles <- review_titles_of soup ;;
      let review_contents := map strip (review_body soup) in
      Return (page_num, Some review_titles, Some review_contents, star_rating)
  end.

(** [{i + (page_num - 1) * 10: title for i, title in page_titles.items()}] *)
Definition global_titles (page_num : Z) (page_titles : dict Z string)
  : dict key string :=
  dict_of_items key_eqb
    (map (fun it => (KInt (fst it + (page_num - 1) * 10), snd it)) page_titles).

(** The body of the [for future in as_completed(...)] loop: the [try]
    block on the future's result, an exception of the page leaving the
    accumulated values as they are.  [if page_titles and page_reviews] holds
    when neither is [None] or empty. *)
Definition merge_future (acc : corpus) (future : result page_result) : corpus :=
  match future with
  | Raise _ => acc
  | Return (page_num, page_titles, page_reviews, star_rating) =>
      let acc1 :=
        match page_titles, page_reviews with
        | Some ((_ :: _) as page_titles), Some ((_ :: _) as page_reviews) =>
            {| titles := dict_update key_eqb (titles acc)
                           (global_titles page_num page_titles);
               reviews := (reviews acc ++ page_reviews)%list;
               product_star_rating := product_star_rating acc |}
        | _, _ => acc
        end in
      if truthy_str star_rating && (page_num =? 1) then
        {| titles := titles acc1;
           reviews := reviews acc1;
           product_star_rating := star_rating |}
      else acc1
  end.

(** The futures are identified by the page they were submitted for;
    [as_completed] hands them back in the order they finish, which the
    thread pool decides: it is a parameter, some rearrangement of the
    submitted pages. *)
Definition scrape_reviews_concurrently
    (as_completed : list Z -> list Z) (total_pages : Z) : result corpus :=
  let future_to_page := range 1 (total_pages + 1) in
  Return (fold_left (fun acc page_num => merge_future acc (scrape_page page_num))
                    (as_completed future_to_page) empty_corpus).
End Scraper.

(** ** The JSON snapshot

    [json.dump] followed by [json.load] is modelled on JSON documents: the
    text written with [indent=4] is the [json] module's, and parsing it
    gives back the document. *)
Inductive json : Type :=
| JNull
| JStr (s : string)
| JArr (items : list json)
| JObj (members : list (string * json)).

(** The Python values the snapshot is made of. *)
Inductive pyval : Type :=
| PNone
| PStr (s : string)
| PList (items : list pyval)
| PDict (d : list (key * pyval)).

(** Keys of a [dict] are written as strings: an [int] key by its decimal
    text. *)
Definition json_key (k : key) : string := str_of_key k.

Fixpoint json_dump (v : pyval) : json :=
  match v with
  | PNone => JNull
  | PStr s => JStr s
  | PList items => JArr (map json_dump items)
  | PDict d => JObj (map (fun kv => let '(k, x) := kv in (json_key k, json_dump x)) d)
  end.

Fixpoint json_load (j : json) : pyval :=
  match j with
  | JNull => PNone
  | JStr s => PStr s
  | JArr items => PList (map json_load items)
  | JObj members =>
      PDict (dict_of_items key_eqb
               (map (fun kv => let '(k, x) := kv in (KStr k, json_load x)) members))
  end.

(** The files: a path holds a JSON document or does not exist. *)
Definition filesystem : Type := string -> option json.

Definition write_file (fs : filesystem) (path : string) (doc : json) : filesystem :=
  fun p => if String.eqb p path then Some doc else fs p.

Definition py_titles (titles : dict key string) : pyval :=
  PDict (map (fun kv => (fst kv, PStr (snd kv))) titles).

Definition py_reviews (reviews : list string) : pyval :=
  PList (map PStr reviews).

Definition py_star_rating (star_rating : option string) : pyval :=
  match star_rating with
  | Some s => PStr s
  | None => PNone
  end.

Definition save_reviews_to_file (fs : filesystem) (file_path : string)
    (titles : dict key string) (reviews : list string)
    (star_rating : option string) : filesystem :=
  let data := PDict [ (KStr "star_rating", py_star_rating star_rating);
                      (KStr "titles", py_titles titles);
                      (KStr "reviews", py_reviews reviews) ] in
  write_file fs file_path (json_dump data).

(** [data[name]] *)
Definition subscript (data : pyval) (name : string) : result pyval :=
  match data with
  | PDict d =>
      match dict_get key_eqb (KStr name) d with
      | Some v => Return v
      | None => Raise KeyError
      end
  | PList _ | PStr _ | PNone => Raise TypeError
  end.

Definition load_reviews_from_file (fs : filesystem) (file_path : string)
  : result (pyval * pyval * pyval) :=
  match fs file_path with
  | Some doc =>
      let data := json_load doc in
      titles <- subscript data "titles" ;;
      reviews <- subscript data "reviews" ;;
      star_rating <- subscript data "star_rating" ;;
      Return (titles, reviews, star_rating)
  | None => Return (PNone, PNone, PNone)
  end.

End ReviewScraper.

(* ================================================================== *)
(** * class SentimentAnalyzer *)
(* ================================================================== *)

Module SentimentAnalyzer.
Local Open Scope py_scope.

(** The dictionary [sentiment_counts], whose five keys are fixed. *)
Record sentiment_counts : Type := {
  very_positive : nat;
  positive : nat;
  negative : nat;
  very_negative : nat;
  neutral : nat
}.

Definition zero_counts : sentiment_counts :=
  {| very_positive := 0; positive := 0; negative := 0;
     very_negative := 0; neutral := 0 |}.

(** [sum(sentiment_counts.values())] *)
Definition sum_values (c : sentiment_counts) : nat :=
  (very_positive c + positive c + negative c + very_negative c + neutral c)%nat.

Definition validate_reviews (reviews : list (list string)) (vocab : list string)
  : list (list string) :=
  map (filter (fun token => existsb (String.eqb token) vocab)) reviews.

Section Analyzer.
Variable fl : Q -> Q.
(** [self.sia.polarity_scores(w)["compound"]] *)
Variable compound : string -> Q.

(** [sum(... for w in review) / len(review)] *)
Definition score_of (review : list string) : result Q :=
  fdiv fl (fsum fl (map compound review)) (Z.of_nat (List.length review)).

Definition state : Type := (sentiment_counts * list string)%type.

(** One turn of the loop over [reviews]. *)
Definition analyze_review (st : state) (review : list string) : result state :=
  let '(c, review_sentiments) := st in
  match review with
  | [] => Return st
  | _ :: _ =>
      score <- score_of review ;;
      if float_gt score double_0_05 then
        Return ({| very_positive := very_positive c;
                   positive := positive c + 1;
                   negative := negative c;
                   very_negative := very_negative c;
                   neutral := neutral c |},
                (review_sentiments ++ ["positive"])%list)
      else if float_gt score 0 then
        Return ({| very_positive := very_positive c + 1;
                   positive := positive c;
                   negative := negative c;
                   very_negative := very_negative c;
                   neutral := neutral c |},
                (review_sentiments ++ ["very positive"])%list)
      else if float_lt score (- double_0_05) then
        Return ({| very_positive := very_positive c;
                   positive := positive c;
                   negative := negative c + 1;
                   very_negative := very_negative c;
                   neutral := neutral c |},
                (review_sentiments ++ ["negative"])%list)
      else if float_lt score 0 then
        Return ({| very_positive := very_positive c;
                   positive := positive c;
                   negative := negative c;
                   very_negative := very_negative c + 1;
                   neutral := neutral c |},
                (review_sentiments ++ ["very negative"])%list)
      else
        Return ({| very_positive := very_positive c;
                   positive := positive c;
                   negative := negative c;
                   very_negative := very_negative c;
                   neutral := neutral c + 1 |},
                (review_sentiments ++ ["neutral"])%list)
  end.

Fixpoint analyze_from (st : state) (reviews : list (list string)) : result state :=
  match reviews with
  | [] => Return st
  | review :: rest => st' <- analyze_review st review ;; analyze_from st' rest
  end.

Definition analyze_sentiment (reviews : list (list string)) : result state :=
  analyze_from (zero_counts, []) reviews.
End Analyzer.

Section Preprocess.
(** [str.isalpha] and [str.lower]: they follow the Unicode character
    tables, which are not modelled, so they are parameters. *)
Variable isalpha : string -> bool.
Variable lower : string -> string.
(** [word_tokenize], [WordNetLemmatizer().lemmatize] and the English
    stop words of NLTK. *)
Variable word_tokenize : string -> list string.
Variable lemmatize : string -> string.
Variable stop_words : list string.

Definition preprocess_reviews (reviews : list string) : list (list string) :=
  let punctuation_free_reviews := map remove_punctuation reviews in
  let tokenized_reviews := map word_tokenize punctuation_free_reviews in
  map (fun tokens =>
         map (fun token => lemmatize (lower token))
             (filter (fun token =>
                        isalpha token
                        && negb (existsb (String.eqb (lower token)) stop_words))
                     tokens))
      tokenized_reviews.
End Preprocess.

End SentimentAnalyzer.

(* ================================================================== *)
(** * class ReportGenerator *)
(* ================================================================== *)

Module ReportGenerator.
Import SentimentAnalyzer.
Local Open Scope py_scope.

Section Report.
Variable fl : Q -> Q.

Definition str_of_nat (n : nat) : string := str_of_int (Z.of_nat n).

Definition display_SIA_results (total_sentiment_counts : sentiment_counts)
    (product_star_rating : option string) (review_sentiments : list string)
    (titles : dict key string) : io unit :=
  let c := total_sentiment_counts in
  print ("SIA Results:" ++ nl) ;;;
  let total_reviews := sum_values c in
  print (nl ++ "Total Reviews = " ++ str_of_nat total_reviews) ;;;
  print ("Total Very Positive Reviews = " ++ str_of_nat (very_positive c) ++ tab
         ++ "Total Positive Reviews = " ++ str_of_nat (positive c)) ;;;
  print ("Total Very Negative Reviews = " ++ str_of_nat (very_negative c) ++ tab
         ++ "Total Negative Reviews = " ++ str_of_nat (negative c)) ;;;
  print ("Total Neutral Reviews = " ++ str_of_nat (neutral c)) ;;;
  pos <~ lift (truediv fl (Z.of_nat (very_positive c + positive c))
                          (Z.of_nat total_reviews)) ;;
  let overall_positive_reviews := format_percent4 fl pos in
  neg <~ lift (truediv fl (Z.of_nat (very_negative c + negative c))
                          (Z.of_nat total_reviews)) ;;
  let overall_negative_reviews := format_percent4 fl neg in
  neu <~ lift (truediv fl (Z.of_nat (neutral c)) (Z.of_nat total_reviews)) ;;
  let overall_neutral_reviews := format_percent4 fl neu in
  print (nl ++ "Overall Positive Reviews: " ++ overall_positive_reviews) ;;;
  print ("Overall Negative Reviews: " ++ overall_negative_reviews) ;;;
  print ("Overall Neutral Reviews: " ++ overall_neutral_reviews) ;;;
  print (nl ++ "Review sentiments based on SIA:") ;;;
  io_for (zip (enumerate 1 review_sentiments) titles)
    (fun it =>
       let '((idx, sentiment), (idx_title, review_title)) := it in
       print ("Review " ++ str_of_int idx ++ ": " ++ review_title
              ++ " -> " ++ sentiment)) ;;;
  pos <~ lift (truediv fl (Z.of_nat (very_positive c + positive c))
                          (Z.of_nat total_reviews)) ;;
  let overall_positive_reviews := format_percent4 fl pos in
  print (nl ++ "Overall Positive Reviews: " ++ overall_positive_reviews) ;;;
  print (nl ++ "Compare to the product's star rating of "
         ++ str_of_opt product_star_rating).

(** The first three statements of [display_BERT_results]: the share of
    positive predictions, formatted. *)
Definition overall_positive_BERT (predictions : list string) : result string :=
  let positive_reviews :=
    List.length (filter (fun pred => String.eqb pred "positive") predictions) in
  let total_reviews := List.length predictions in
  x <- truediv fl (Z.of_nat positive_reviews) (Z.of_nat total_reviews) ;;
  Return (format_percent4 fl x).

Definition display_BERT_results (titles : dict key string)
    (predictions : list string) (star_rating : option string) : io unit :=
  overall_positive_reviews <~ lift (overall_positive_BERT predictions) ;;
  print (nl ++ " BERT Results:" ++ nl) ;;;
  print (nl ++ "Review sentiments based on BERT:") ;;;
  io_for titles
    (fun it =>
       let '(idx, title) := it in
       i <~ lift (match idx with
                  | KInt z => Return (z - 1)
                  | KStr _ => Raise TypeError
                  end) ;;
       pred <~ lift (getitem predictions i) ;;
       print ("Review " ++ str_of_key idx ++ ": " ++ title ++ " -> " ++ pred)) ;;;
  print ("Overall positive reviews: " ++ overall_positive_reviews ++ " " ++ nl
         ++ "Compare to the product's star rating of " ++ str_of_opt star_rating).
End Report.

End ReportGenerator.

(* ================================================================== *)
(** * main *)
(* ================================================================== *)

Module Main.
Import ReviewScraper.
Local Open Scope py_scope.

(** [v is None] *)
Definition is_none (v : pyval) : bool :=
  match v with
  | PNone => true
  | _ => false
  end.

(** The first part of [main], from [file_path = ...] to the end of the [if]
    that scrapes and saves: the snapshot is loaded, and only when it gives
    no titles or no reviews are the ten pages scraped and the snapshot
    written.  The result is the files as they are left, with the values of
    [titles], [reviews] and [product_star_rating] or the exception that
    stopped the run.  What is printed on the way, by [main] and by the
    functions it calls, is left out. *)
Definition main_load_or_scrape (fs : filesystem) (product product_id : string)
    (requests_get : string -> result response)
    (as_completed : list Z -> list Z)
  : filesystem * result (pyval * pyval * pyval) :=
  let file_path := product_id ++ "_reviews.json" in
  match load_reviews_from_file fs file_path with
  | Raise e => (fs, Raise e)
  | Return (loaded_titles, loaded_reviews, loaded_star_rating) =>
      if is_none loaded_titles || is_none loaded_reviews then
        match scrape_reviews_concurrently product product_id requests_get
                as_completed 10 with
        | Raise e => (fs, Raise e)
        | Return c =>
            (save_reviews_to_file fs file_path
               (titles c) (reviews c) (product_star_rating c),
             Return (py_titles (titles c), py_reviews (reviews c),
                     py_star_rating (product_star_rating c)))
        end
      else (fs, Return (loaded_titles, loaded_reviews, loaded_star_rating))
  end.

End Main.

Import ReviewScraper SentimentAnalyzer ReportGenerator Main.

(* ================================================================== *)
(** * Vocabulary of the properties *)
(* ================================================================== *)

(** A page's fetch failed: the request raised, the status was not 200 or
    the page could not be taken apart. *)
Definition page_failed (r : result page_result) : bool :=
  match r with
  | Raise _ => true
  | Return (_, None, _, _) => true
  | Return (_, Some _, _, _) => false
  end.

(** The completion order is some rearrangement of the submitted futures. *)
Definition completion_order (as_completed : list Z -> list Z) : Prop :=
  forall submitted, Permutation submitted (as_completed submitted).

(** The loop of [scrape_reviews_concurrently] run over a given order of
    completion, from given accumulated values. *)
Definition merged (product product_id : string)
    (requests_get : string -> result response)
    (order : list Z) (acc : corpus) : corpus :=
  fold_left
    (fun acc page_num =>
       merge_future acc (scrape_page product product_id requests_get page_num))
    order acc.

(** Orchestration failure as the specification words it, for one run: the call
    fails exactly when no page was asked for or every page failed. *)
Definition failure_exactly_when_no_page (product product_id : string)
    (requests_get : string -> result response)
    (as_completed : list Z -> list Z) (total_pages : Z) : Prop :=
  raised (scrape_reviews_concurrently product product_id requests_get
            as_completed total_pages) = true
  <-> (total_pages < 1
       \/ forall p, 1 <= p <= total_pages ->
            page_failed (scrape_page product product_id requests_get p) = true).

(** No page of the order carries more than ten titles. *)
Definition ten_titles_a_page (product product_id : string)
    (requests_get : string -> result response) (order : list Z) : Prop :=
  forall m pt pr star,
    In m order ->
    scrape_page product product_id requests_get m = Return (m, Some pt, pr, star) ->
    (List.length pt <= 10)%nat.

(** ** A product of two pages, used in the examples *)

Definition title_element (stars title : string) : string :=
  stars ++ nl ++ title.

Definition page_one : soup :=
  {| rating_out_of_text := Some "4.5 out of 5";
     review_title := [ title_element "5.0 out of 5 stars" "Great";
                       title_element "3.0 out of 5 stars" "OK" ];
     review_body := [ "love it"; "it is fine" ] |}.

Definition page_two : soup :=
  {| rating_out_of_text := Some "1.0 out of 5";
     review_title := [ title_element "1.0 out of 5 stars" "Bad" ];
     review_body := [ "broke fast" ] |}.

Definition serve (first second : result response) (url : string)
  : result response :=
  if String.eqb url (current_url "Widget" "B0CHWRXH8B" 1) then first
  else if String.eqb url (current_url "Widget" "B0CHWRXH8B" 2) then second
  else Raise RequestException.

Definition ok (s : soup) : result response :=
  Return {| status_code := 200; content := s |}.

Definition unavailable (s : soup) : result response :=
  Return {| status_code := 503; content := s |}.

(** Both pages answer. *)
Definition both_pages : string -> result response :=
  serve (ok page_one) (ok page_two).

(** Page 1 is refused, page 2 answers (and shows a rating element). *)
Definition page_one_down : string -> result response :=
  serve (unavailable page_one) (ok page_two).



(** Page 1 answers without a rating element. *)
Definition page_one_unrated : soup :=
  {| rating_out_of_text := None;
     review_title := review_title page_one;
     review_body := review_body page_one |}.

Definition unrated : string -> result response :=
  serve (ok page_one_unrated) (ok page_two).

(** Pages finishing in the order they were submitted, and in the reverse
    order. *)
Definition in_order (submitted : list Z) : list Z := submitted.
Definition last_first (submitted : list Z) : list Z := rev submitted.

(** The bodies a page contributes: none unless it came back with titles
    and bodies. *)
Definition page_bodies (product product_id : string)
    (requests_get : string -> result response) (page_num : Z) : list string :=
  match scrape_page product product_id requests_get page_num with
  | Return (_, Some (_ :: _), Some ((_ :: _) as page_reviews), _) => page_reviews
  | _ => []
  end.


(** ** The lexicon path *)

(** The labels of the lexicon classifier. *)
Inductive label : Type :=
| VeryPositive
| Positive
| Neutral
| Negative
| VeryNegative.

(** The thresholds in the order the specification lists them; [0.05] is
    the double of that name, as everywhere in the program. *)
Definition threshold_label (score : Q) : label :=
  if Qlt_le_dec double_0_05 score then Positive
  else if Qlt_le_dec 0 score then VeryPositive
  else if Qlt_le_dec score (- double_0_05) then Negative
  else if Qlt_le_dec score 0 then VeryNegative
  else Neutral.

(** The entry of the counts a label stands for, and the text appended to
    the per-item sequence. *)
Definition count_label (l : label) (c : sentiment_counts) : sentiment_counts :=
  match l with
  | VeryPositive =>
      {| very_positive := very_positive c + 1; positive := positive c;
         negative := negative c; very_negative := very_negative c;
         neutral := neutral c |}
  | Positive =>
      {| very_positive := very_positive c; positive := positive c + 1;
         negative := negative c; very_negative := very_negative c;
         neutral := neutral c |}
  | Negative =>
      {| very_positive := very_positive c; positive := positive c;
         negative := negative c + 1; very_negative := very_negative c;
         neutral := neutral c |}
  | VeryNegative =>
      {| very_positive := very_positive c; positive := positive c;
         negative := negative c; very_negative := very_negative c + 1;
         neutral := neutral c |}
  | Neutral =>
      {| very_positive := very_positive c; positive := positive c;
         negative := negative c; very_negative := very_negative c;
         neutral := neutral c + 1 |}
  end.

Definition sentiment_name (l : label) : string :=
  match l with
  | VeryPositive => "very positive"
  | Positive => "positive"
  | Neutral => "neutral"
  | Negative => "negative"
  | VeryNegative => "very negative"
  end.

(** The reviews that have tokens left. *)
Definition non_empty (reviews : list (list string)) : list (list string) :=
  filter (fun review => match review with [] => false | _ :: _ => true end) reviews.

(** The 1-based positions of the reviews that have tokens left: the
    reviews that produce a label, in order. *)
Definition producing_positions (reviews : list (list string)) : list Z :=
  map fst
    (filter (fun it => match snd it with [] => false | _ :: _ => true end)
            (enumerate 1 reviews)).

(** Each label with the position and the title of the review it was
    computed from. *)
Definition paired_by_review (titles : dict key string)
    (reviews : list (list string)) (review_sentiments : list string)
  : list (Z * option string * string) :=
  map (fun it => (fst it, dict_get key_eqb (KInt (fst it)) titles, snd it))
      (zip (producing_positions reviews) review_sentiments).

(** A lexicon of three words for the examples; 0.4404 and -0.5423 are the
    doubles of those names. *)
Definition lexicon (w : string) : Q :=
  if String.eqb w "good" then 3966770551787933 # 9007199254740992
  else if String.eqb w "bad" then - (610575519480755 # 1125899906842624)
  else 0.

(** Arithmetic without rounding error, for the examples. *)
Definition exact (q : Q) : Q := q.

(** ** The reports *)

(** The lines [display_SIA_results] prints before it divides. *)
Definition count_lines (c : sentiment_counts) : list string :=
  [ "SIA Results:" ++ nl;
    nl ++ "Total Reviews = " ++ str_of_nat (sum_values c);
    "Total Very Positive Reviews = " ++ str_of_nat (very_positive c) ++ tab
      ++ "Total Positive Reviews = " ++ str_of_nat (positive c);
    "Total Very Negative Reviews = " ++ str_of_nat (very_negative c) ++ tab
      ++ "Total Negative Reviews = " ++ str_of_nat (negative c);
    "Total Neutral Reviews = " ++ str_of_nat (neutral c) ].

(** The share [part / total], as a float, formatted: what both reports
    print as a percentage. *)
Definition percentage (fl : Q -> Q) (part total : nat) : string :=
  format_percent4 fl (fl (inject_Z (Z.of_nat part) / inject_Z (Z.of_nat total))%Q).

(** The line printed for one pair of the zipped sequences. *)
Definition pairing_line (it : (Z * string) * (key * string)) : string :=
  "Review " ++ str_of_int (fst (fst it)) ++ ": " ++ snd (snd it)
    ++ " -> " ++ snd (fst it).

(** A loaded titles value read as the dictionary the reports are given. *)
Definition as_titles (v : pyval) : dict key string :=
  match v with
  | PDict d =>
      flat_map (fun kv => match snd kv with
                          | PStr s => [(fst kv, s)]
                          | _ => []
                          end) d
  | _ => []
  end.

(** No file yet. *)
Definition no_files : filesystem := fun _ => None.

(** The lines [display_SIA_results] prints after it has divided, before
    and after the listing of the reviews. *)
Definition summary_lines (fl : Q -> Q) (c : sentiment_counts) : list string :=
  [ nl ++ "Overall Positive Reviews: "
      ++ percentage fl (very_positive c + positive c) (sum_values c);
    "Overall Negative Reviews: "
      ++ percentage fl (very_negative c + negative c) (sum_values c);
    "Overall Neutral Reviews: " ++ percentage fl (neutral c) (sum_values c);
    nl ++ "Review sentiments based on SIA:" ].

Definition overall_positive_line (fl : Q -> Q) (c : sentiment_counts) : string :=
  nl ++ "Overall Positive Reviews: "
    ++ percentage fl (very_positive c + positive c) (sum_values c).

Definition rating_line (product_star_rating : option string) : string :=
  nl ++ "Compare to the product's star rating of "
    ++ str_of_opt product_star_rating.

Definition closing_lines (fl : Q -> Q) (c : sentiment_counts)
    (product_star_rating : option string) : list string :=
  [ overall_positive_line fl c; rating_line product_star_rating ].

(* ================================================================== *)
(** * Vocabulary of the further properties *)
(* ================================================================== *)

(** The mean polarity of a review with tokens, as the classifier computes
    it, and the text it appends for it. *)
Definition mean_score (fl : Q -> Q) (compound : string -> Q)
    (review : list string) : Q :=
  fl (fsum fl (map compound review)
      / inject_Z (Z.of_nat (List.length review)))%Q.

Definition review_sentiment (fl : Q -> Q) (compound : string -> Q)
    (review : list string) : string :=
  sentiment_name (threshold_label (mean_score fl compound review)).

(** How often a text occurs in the per-item sequence. *)
Definition occurrences (name : string) (review_sentiments : list string) : nat :=
  count_occ string_dec review_sentiments name.

(** A key that [display_BERT_results] can use with [n] predictions the way
    the scraper means it: an integer from 1 to [n]. *)
Definition key_in_range (n : nat) (k : key) : bool :=
  match k with
  | KInt z => (1 <=? z) && (z <=? Z.of_nat n)
  | KStr _ => false
  end.

(** A key on which [display_BERT_results] stops: a string, or an integer
    whose predecessor is no index of a list of [n] items, from the front or
    from the back. *)
Definition key_out_of_range (n : nat) (k : key) : bool :=
  match k with
  | KInt z => (Z.of_nat n <? z) || (z <=? - Z.of_nat n)
  | KStr _ => true
  end.

Definition key_error (k : key) : exn :=
  match k with
  | KInt _ => IndexError
  | KStr _ => TypeError
  end.

(** The line of the model report for a title whose key is in range. *)
Definition bert_line (predictions : list string) (it : key * string) : string :=
  "Review " ++ str_of_key (fst it) ++ ": " ++ snd it ++ " -> "
    ++ match fst it with
       | KInt z => nth (Z.to_nat (z - 1)) predictions ""
       | KStr _ => ""
       end.

Definition bert_heading : list string :=
  [ nl ++ " BERT Results:" ++ nl; nl ++ "Review sentiments based on BERT:" ].

Definition bert_closing (fl : Q -> Q) (predictions : list string)
    (star_rating : option string) : string :=
  "Overall positive reviews: "
    ++ percentage fl
         (List.length (filter (fun pred => String.eqb pred "positive") predictions))
         (List.length predictions)
    ++ " " ++ nl ++ "Compare to the product's star rating of "
    ++ str_of_opt star_rating.

(** [c in s] for a character [c]. *)
Fixpoint contains (c : ascii) (s : string) : bool :=
  match s with
  | EmptyString => false
  | String c' s' => Ascii.eqb c' c || contains c s'
  end.

Definition newline : ascii := ascii_of_nat 10.

(** The rating that page 1 hands to the corpus: the one its result
    carries, unless that is the empty string. *)
Definition page_one_rating (product product_id : string)
    (requests_get : string -> result response) : option string :=
  match scrape_page product product_id requests_get 1 with
  | Return (_, _, _, Some s) => if String.eqb s "" then None else Some s
  | _ => None
  end.

(** The title that page [n] writes at key [k], if it writes there. *)
Definition page_title_at (product product_id : string)
    (requests_get : string -> result response) (n : Z) (k : key)
  : option string :=
  match scrape_page product product_id requests_get n with
  | Return (_, Some ((_ :: _) as pt), Some (_ :: _), _) =>
      dict_get key_eqb k (global_titles n pt)
  | _ => None
  end.

(** The pages of an order whose fetch did not fail. *)
Definition fetched_pages (product product_id : string)
    (requests_get : string -> result response) (order : list Z) : list Z :=
  filter (fun p => negb (page_failed (scrape_page product product_id requests_get p)))
         order.

(** The page whose block of ten keys holds the key [k]. *)
Definition owner (k : key) : Z :=
  match k with
  | KInt z => (z - 1) / 10 + 1
  | KStr _ => 0
  end.

(** The titles as [json.load] hands them back: every key replaced by its
    text. *)
Definition string_keyed (titles : dict key string) : dict key string :=
  map (fun it => (KStr (str_of_key (fst it)), snd it)) titles.

(** The path of the snapshot of a product. *)
Definition snapshot_path (product_id : string) : string :=
  product_id ++ "_reviews.json".

(** What every stage of the merge keeps: stripped reviews, titles of one
    line, a stripped and non-empty rating if any, and titles exactly when
    there are reviews. *)
Definition clean (acc : corpus) : Prop :=
  Forall (fun r => strip r = r) (reviews acc)
  /\ Forall (fun t => contains newline t = false) (map snd (titles acc))
  /\ (forall s, product_star_rating acc = Some s -> strip s = s /\ s <> "")
  /\ (titles acc = [] <-> reviews acc = []).

(* ================================================================== *)
(** * Facts about the runtime model *)
(* ================================================================== *)

Lemma key_eqb_eq (a b : key) : key_eqb a b = true <-> a = b.
Proof.
  destruct a as [x|x], b as [y|y]; simpl.
  - rewrite Z.eqb_eq. split; congruence.
  - split; discriminate.
  - split; discriminate.
  - rewrite String.eqb_eq. split; congruence.
Qed.

Lemma In_range (lo hi p : Z) : In p (range lo hi) <-> lo <= p < hi.
Proof.
  unfold range. rewrite in_map_iff. split.
  - intros [i [<- Hi]]. apply in_seq in Hi. lia.
  - intros H. exists (Z.to_nat (p - lo)). split; [lia|].
    apply in_seq. lia.
Qed.

Lemma enumerate_fst_bounds {A} (l : list A) : forall start k,
  In k (map fst (enumerate start l)) ->
  start <= k < start + Z.of_nat (List.length l).
Proof.
  induction l as [|a l IH]; simpl; intros start k H; [contradiction|].
  destruct H as [<-|H]; [lia|].
  apply IH in H. lia.
Qed.

Lemma enumerate_fst_NoDup {A} (l : list A) : forall start,
  NoDup (map fst (enumerate start l)).
Proof.
  induction l as [|a l IH]; simpl; intros start; constructor.
  - intros H. apply enumerate_fst_bounds in H. lia.
  - apply IH.
Qed.

Lemma enumerate_length {A} (l : list A) : forall start,
  List.length (enumerate start l) = List.length l.
Proof. induction l; simpl; intros; [reflexivity | f_equal; auto]. Qed.

Section DictFacts.
Context {K V : Type}.
Variable eqb : K -> K -> bool.
Hypothesis eqb_eq : forall a b, eqb a b = true <-> a = b.

Lemma eqb_refl' (k : K) : eqb k k = true.
Proof. apply eqb_eq. reflexivity. Qed.

Lemma eqb_neq (a b : K) : a <> b -> eqb a b = false.
Proof.
  intros H. destruct (eqb a b) eqn:E; [|reflexivity].
  apply eqb_eq in E. contradiction.
Qed.

Lemma dict_get_set_same (k : K) (v : V) (d : dict K V) :
  dict_get eqb k (dict_set eqb k v d) = Some v.
Proof.
  induction d as [|[k' v'] d IH]; simpl.
  - rewrite eqb_refl'. reflexivity.
  - destruct (eqb k k') eqn:E; simpl; rewrite E; auto.
Qed.

Lemma dict_get_set_other (k k' : K) (v : V) (d : dict K V) :
  k <> k' -> dict_get eqb k (dict_set eqb k' v d) = dict_get eqb k d.
Proof.
  intros Hne. induction d as [|[k0 v0] d IH]; simpl.
  - rewrite eqb_neq by assumption. reflexivity.
  - destruct (eqb k' k0) eqn:E; simpl.
    + apply eqb_eq in E. subst k0.
      rewrite eqb_neq by assumption. reflexivity.
    + rewrite IH. reflexivity.
Qed.

Lemma dict_get_not_in (k : K) (d : dict K V) :
  ~ In k (dict_keys d) -> dict_get eqb k d = None.
Proof.
  induction d as [|[k' v'] d IH]; simpl; intros H; [reflexivity|].
  rewrite eqb_neq by (intros ->; apply H; left; reflexivity).
  apply IH. intros Hin. apply H. right. exact Hin.
Qed.

Lemma dict_get_in (k : K) (v : V) (d : dict K V) :
  dict_get eqb k d = Some v -> In k (dict_keys d).
Proof.
  induction d as [|[k' v'] d IH]; simpl; [discriminate|].
  destruct (eqb k k') eqn:E.
  - apply eqb_eq in E. subst. left. reflexivity.
  - intros H. right. apply IH. exact H.
Qed.

Lemma dict_set_not_in (k : K) (v : V) (d : dict K V) :
  ~ In k (dict_keys d) -> dict_set eqb k v d = (d ++ [(k, v)])%list.
Proof.
  induction d as [|[k' v'] d IH]; simpl; intros H; [reflexivity|].
  rewrite eqb_neq by (intros ->; apply H; left; reflexivity).
  rewrite IH; [reflexivity|]. intros Hin. apply H. right. exact Hin.
Qed.

(** Setting the bindings of a list with distinct fresh keys appends them. *)
Lemma fold_set_distinct (items : list (K * V)) : forall acc : dict K V,
  NoDup (dict_keys (acc ++ items)%list) ->
  fold_left (fun d kv => dict_set eqb (fst kv) (snd kv) d) items acc
  = (acc ++ items)%list.
Proof.
  induction items as [|[k v] items IH]; intros acc H; simpl.
  - rewrite app_nil_r. reflexivity.
  - unfold dict_keys in *. rewrite map_app in H. simpl in H.
    rewrite dict_set_not_in.
    + rewrite IH.
      * rewrite <- app_assoc. reflexivity.
      * unfold dict_keys. rewrite <- app_assoc. rewrite map_app. exact H.
    + apply NoDup_remove_2 in H. intros Hin. apply H.
      apply in_or_app. left. exact Hin.
Qed.

Lemma dict_of_items_distinct (items : list (K * V)) :
  NoDup (dict_keys items) -> dict_of_items eqb items = items.
Proof.
  intros H. unfold dict_of_items. apply (fold_set_distinct items []). exact H.
Qed.

(** Looking a key up after an update with a dictionary [other]. *)
Lemma dict_get_fold_set (k : K) (other : list (K * V)) : forall d : dict K V,
  NoDup (dict_keys other) ->
  dict_get eqb k
    (fold_left (fun acc kv => dict_set eqb (fst kv) (snd kv) acc) other d)
  = match dict_get eqb k other with
    | Some v => Some v
    | None => dict_get eqb k d
    end.
Proof.
  induction other as [|[k' v'] other IH]; intros d Hnd; simpl.
  - reflexivity.
  - unfold dict_keys in Hnd. simpl in Hnd. inversion Hnd as [|? ? Hnotin Hnd']; subst.
    rewrite IH by exact Hnd'.
    destruct (eqb k k') eqn:E.
    + apply eqb_eq in E. subst k'.
      rewrite (dict_get_not_in _ other) by exact Hnotin.
      apply dict_get_set_same.
    + destruct (dict_get eqb k other); [reflexivity|].
      apply dict_get_set_other. intros ->. rewrite eqb_refl' in E. discriminate.
Qed.

Lemma dict_get_update (k : K) (d other : dict K V) :
  NoDup (dict_keys other) ->
  dict_get eqb k (dict_update eqb d other)
  = match dict_get eqb k other with
    | Some v => Some v
    | None => dict_get eqb k d
    end.
Proof. apply dict_get_fold_set. Qed.
End DictFacts.

(* ================================================================== *)
(** * Facts about the scraper *)
(* ================================================================== *)

Lemma mapM_keys {A} (g : A -> result string) (l : list (Z * A)) :
  forall bs,
  mapM (fun it => Py.bind (g (snd it)) (fun t => Return (fst it + 1, t))) l = Return bs ->
  map fst bs = map (fun it => fst it + 1) l.
Proof.
  induction l as [|[i a] l IH]; simpl; intros bs H.
  - inversion H. reflexivity.
  - destruct (g a) as [t|e]; simpl in H; [|discriminate].
    destruct (mapM _ l) as [bs'|e]; [|discriminate].
    inversion H; subst. simpl. f_equal. apply IH. reflexivity.
Qed.

Lemma NoDup_map_succ (l : list Z) : NoDup l -> NoDup (map (fun i => i + 1) l).
Proof.
  intros H. apply Finite.Injective_map_NoDup; [|exact H].
  intros x y Hxy. lia.
Qed.

Section ScraperFacts.
Variables product product_id : string.
Variable requests_get : string -> result response.

Let scrape_page := scrape_page product product_id requests_get.

(** The local titles are numbered 1, 2, ... in document order. *)
Lemma review_titles_of_keys (s : soup) (pt : dict Z string) :
  review_titles_of s = Return pt ->
  NoDup (dict_keys pt)
  /\ List.length pt = List.length (review_title s)
  /\ forall i, In i (dict_keys pt) -> 1 <= i <= Z.of_nat (List.length pt).
Proof.
  unfold review_titles_of. intros H.
  destruct (mapM _ (enumerate 0 (review_title s))) as [items|e] eqn:E;
    simpl in H; [|discriminate].
  inversion H as [Hpt]. clear H.
  pose proof (mapM_keys title_text _ _ E) as Hk.
  assert (Hnd : NoDup (dict_keys items)).
  { unfold dict_keys. rewrite Hk.
    rewrite <- (map_map fst (fun i => i + 1)).
    apply NoDup_map_succ. apply enumerate_fst_NoDup. }
  rewrite (dict_of_items_distinct Z.eqb Z.eqb_eq) by exact Hnd.
  assert (Hlen : List.length items = List.length (review_title s)).
  { rewrite <- (length_map fst items), Hk, length_map. apply enumerate_length. }
  repeat split; try assumption.
  - unfold dict_keys in H. rewrite Hk in H.
    rewrite <- (map_map fst (fun i => i + 1)) in H.
    apply in_map_iff in H. destruct H as [j [<- Hj]].
    apply enumerate_fst_bounds in Hj. lia.
  - unfold dict_keys in H. rewrite Hk in H.
    rewrite <- (map_map fst (fun i => i + 1)) in H.
    apply in_map_iff in H. destruct H as [j [<- Hj]].
    apply enumerate_fst_bounds in Hj. rewrite Hlen. lia.
Qed.

(** What a page's result says about its fetch. *)
Lemma scrape_page_inv (p q : Z) (pt : dict Z string) pr star :
  scrape_page p = Return (q, Some pt, pr, star) ->
  exists resp,
    requests_get (current_url product product_id p) = Return resp
    /\ status_code resp = 200
    /\ q = p
    /\ review_titles_of (content resp) = Return pt
    /\ pr = Some (map strip (review_body (content resp)))
    /\ star = (if p =? 1 then
                 match rating_out_of_text (content resp) with
                 | Some text => Some (strip text)
                 | None => Some "Not found"
                 end
               else None).
Proof.
  unfold scrape_page, ReviewScraper.scrape_page, get_soup. intros H.
  destruct (requests_get _) as [resp|e]; simpl in H; [|discriminate].
  exists resp. destruct (status_code resp =? 200) eqn:Hs; simpl in H.
  - destruct (review_titles_of (content resp)) as [pt'|e]; simpl in H;
      [|discriminate].
    inversion H; subst. apply Z.eqb_eq in Hs. repeat split; auto.
  - discriminate.
Qed.

Lemma scrape_page_num (p q : Z) pt pr star :
  scrape_page p = Return (q, pt, pr, star) -> q = p.
Proof.
  unfold scrape_page, ReviewScraper.scrape_page, get_soup. intros H.
  destruct (requests_get _) as [resp|e]; simpl in H; [|discriminate].
  destruct (status_code resp =? 200); simpl in H.
  - destruct (review_titles_of (content resp)); simpl in H; [|discriminate].
    inversion H; reflexivity.
  - inversion H; reflexivity.
Qed.

(** Only page 1 carries a rating out of [scrape_page]. *)
Lemma scrape_page_star (p q : Z) pt pr star :
  scrape_page p = Return (q, pt, pr, star) -> p <> 1 -> star = None.
Proof.
  unfold scrape_page, ReviewScraper.scrape_page, get_soup. intros H Hp.
  destruct (requests_get _) as [resp|e]; simpl in H; [|discriminate].
  apply Z.eqb_neq in Hp.
  destruct (status_code resp =? 200); simpl in H.
  - destruct (review_titles_of (content resp)); simpl in H; [|discriminate].
    rewrite Hp in H. inversion H; reflexivity.
  - inversion H; reflexivity.
Qed.

(** The comprehension that shifts a page's titles keeps them in order. *)
Lemma global_titles_distinct (page_num : Z) (pt : dict Z string) :
  NoDup (dict_keys pt) ->
  global_titles page_num pt
  = map (fun it => (KInt (fst it + (page_num - 1) * 10), snd it)) pt.
Proof.
  intros H. unfold global_titles.
  apply (dict_of_items_distinct key_eqb key_eqb_eq).
  unfold dict_keys. rewrite map_map. simpl.
  rewrite <- (map_map fst (fun i => KInt (i + (page_num - 1) * 10))).
  apply Finite.Injective_map_NoDup; [|exact H].
  intros x y Hxy. inversion Hxy. lia.
Qed.


Lemma shift_keys (page_num : Z) (pt : dict Z string) :
  dict_keys (map (fun it => (KInt (fst it + (page_num - 1) * 10), snd it)) pt)
  = map (fun i => KInt (i + (page_num - 1) * 10)) (dict_keys pt).
Proof. unfold dict_keys. rewrite !map_map. reflexivity. Qed.

(** The whole scrape never raises: it is the fold of the loop body. *)
Lemma scrape_is_merged (as_completed : list Z -> list Z) (total_pages : Z) :
  scrape_reviews_concurrently product product_id requests_get as_completed total_pages
  = Return (merged product product_id requests_get
              (as_completed (range 1 (total_pages + 1))) empty_corpus).
Proof. reflexivity. Qed.
End ScraperFacts.

Section MergeFacts.
Variables product product_id : string.
Variable requests_get : string -> result response.

Local Notation scrape_page :=
  (ReviewScraper.scrape_page product product_id requests_get).
Local Notation run := (merged product product_id requests_get).

Lemma scrape_page_none (p q : Z) pr star :
  scrape_page p = Return (q, None, pr, star) -> pr = None /\ star = None.
Proof.
  unfold ReviewScraper.scrape_page, get_soup. intros H.
  destruct (requests_get _) as [resp|e]; simpl in H; [|discriminate].
  destruct (status_code resp =? 200); simpl in H.
  - destruct (review_titles_of (content resp)); simpl in H; discriminate.
  - inversion H; split; reflexivity.
Qed.

(** A failed page leaves everything as it was. *)
Lemma merge_failed (acc : corpus) (p : Z) :
  page_failed (scrape_page p) = true -> merge_future acc (scrape_page p) = acc.
Proof.
  intros H. destruct (scrape_page p) as [[[[q pt] pr] star]|e] eqn:E;
    [|reflexivity].
  destruct pt as [pt|]; simpl in H; [discriminate|].
  apply scrape_page_none in E. destruct E as [-> ->]. reflexivity.
Qed.

(** A page other than page 1 leaves the rating as it was. *)
Lemma merge_star_other (acc : corpus) (p : Z) :
  p <> 1 ->
  product_star_rating (merge_future acc (scrape_page p)) = product_star_rating acc.
Proof.
  intros Hp. destruct (scrape_page p) as [[[[q pt] pr] star]|e] eqn:E;
    [|reflexivity].
  pose proof E as Hq. apply scrape_page_num in Hq. subst q.
  apply Z.eqb_neq in Hp. simpl. rewrite Hp, andb_false_r.
  destruct pt as [[|? ?]|], pr as [[|? ?]|]; reflexivity.
Qed.

(** Page 1, when it returns a truthy rating, sets it. *)
Lemma merge_star_one (acc : corpus) pt pr (s : string) :
  scrape_page 1 = Return (1, pt, pr, Some s) -> s <> "" ->
  product_star_rating (merge_future acc (scrape_page 1)) = Some s.
Proof.
  intros E Hs. rewrite E. simpl.
  destruct s as [|c s]; [contradiction|]. simpl.
  destruct pt as [[|? ?]|], pr as [[|? ?]|]; reflexivity.
Qed.

Lemma merged_star_failed (order : list Z) : forall acc,
  page_failed (scrape_page 1) = true ->
  product_star_rating (run order acc) = product_star_rating acc.
Proof.
  induction order as [|p order IH]; intros acc H; simpl; [reflexivity|].
  unfold merged in *. simpl.
  rewrite IH by exact H.
  destruct (Z.eq_dec p 1) as [->|Hp].
  - rewrite merge_failed by exact H. reflexivity.
  - apply merge_star_other. exact Hp.
Qed.

Lemma merged_star_one (order : list Z) pt pr (s : string) :
  scrape_page 1 = Return (1, pt, pr, Some s) -> s <> "" ->
  forall acc,
  product_star_rating acc = Some s \/ In 1 order ->
  product_star_rating (run order acc) = Some s.
Proof.
  intros E Hs. induction order as [|p order IH]; intros acc H; simpl.
  - destruct H as [H|[]]. exact H.
  - unfold merged in *. simpl. apply IH.
    destruct (Z.eq_dec p 1) as [->|Hp].
    + left. eapply merge_star_one; eauto.
    + destruct H as [H|[H|H]].
      * left. rewrite merge_star_other by exact Hp. exact H.
      * congruence.
      * right. exact H.
Qed.

(** The reviews come out in the order of completion. *)
Lemma merge_reviews (acc : corpus) (r : result page_result) :
  reviews (merge_future acc r)
  = (reviews acc
     ++ match r with
        | Return (_, Some (_ :: _), Some ((_ :: _) as page_reviews), _) => page_reviews
        | _ => []
        end)%list.
Proof.
  destruct r as [[[[q pt] pr] star]|e]; simpl; [|rewrite app_nil_r; reflexivity].
  destruct pt as [[|? ?]|], pr as [[|? ?]|];
    destruct (truthy_str star && (q =? 1)); simpl;
    rewrite ?app_nil_r; reflexivity.
Qed.

(** Merging a page that carries titles and bodies. *)
Lemma merge_titles_page (acc : corpus) (n : Z) (pt : dict Z string) pr star :
  scrape_page n = Return (n, Some pt, Some pr, star) ->
  pt <> [] -> pr <> [] ->
  titles (merge_future acc (scrape_page n))
  = dict_update key_eqb (titles acc)
      (map (fun it => (KInt (fst it + (n - 1) * 10), snd it)) pt).
Proof.
  intros E Hpt Hpr. rewrite E.
  pose proof E as Hinv. apply scrape_page_inv in Hinv.
  destruct Hinv as [resp [_ [_ [_ [Ht _]]]]].
  apply review_titles_of_keys in Ht. destruct Ht as [Hnd _].
  rewrite <- (global_titles_distinct n pt Hnd).
  destruct pt as [|x pt]; [contradiction|].
  destruct pr as [|y pr]; [contradiction|].
  simpl. destruct (truthy_str star && (n =? 1)); reflexivity.
Qed.


End MergeFacts.

Lemma in_order_is_completion_order : completion_order in_order.
Proof. intros l. apply Permutation_refl. Qed.

Lemma last_first_is_completion_order : completion_order last_first.
Proof. intros l. apply Permutation_rev. Qed.

Lemma completed_pages (as_completed : list Z -> list Z) (total_pages p : Z) :
  completion_order as_completed ->
  (In p (as_completed (range 1 (total_pages + 1))) <-> 1 <= p <= total_pages).
Proof.
  intros H. rewrite <- (Permutation_in' (eq_refl p) (H _)) at 1.
  rewrite In_range. lia.
Qed.

Section MergedFacts.
Variables product product_id : string.
Variable requests_get : string -> result response.

Local Notation scrape_page :=
  (ReviewScraper.scrape_page product product_id requests_get).
Local Notation run := (merged product product_id requests_get).

Lemma merged_cons (p : Z) (order : list Z) (acc : corpus) :
  run (p :: order) acc = run order (merge_future acc (scrape_page p)).
Proof. reflexivity. Qed.

Lemma merged_all_failed (order : list Z) : forall acc,
  (forall p, In p order -> page_failed (scrape_page p) = true) ->
  run order acc = acc.
Proof.
  induction order as [|p order IH]; intros acc H; [reflexivity|].
  rewrite merged_cons, merge_failed by (apply H; left; reflexivity).
  apply IH. intros q Hq. apply H. right. exact Hq.
Qed.

Lemma reviews_in_completion_order (order : list Z) : forall acc,
  reviews (run order acc)
  = (reviews acc
     ++ List.concat (map (page_bodies product product_id requests_get) order))%list.
Proof.
  induction order as [|p order IH]; intros acc.
  - simpl. rewrite app_nil_r. reflexivity.
  - rewrite merged_cons, IH, merge_reviews. simpl.
    rewrite <- app_assoc. reflexivity.
Qed.

End MergedFacts.

(* ================================================================== *)
(** * The scraper's properties *)
(* ================================================================== *)

(** C1.  The reviews of the corpus follow the order in which the pages
    complete, not the page numbers: for the two-page product, pages
    completing in submission order give the bodies of page 1 then those of
    page 2, pages completing in the reverse order give those of page 2
    first, although every fetch succeeds with the same outcome in both
    runs. *)
Theorem reviews_follow_completion_order :
  completion_order in_order /\ completion_order last_first
  /\ scrape_reviews_concurrently "Widget" "B0CHWRXH8B" both_pages in_order 2
     = Return {| titles := [(KInt 1, "Great"); (KInt 2, "OK"); (KInt 11, "Bad")];
                 reviews := ["love it"; "it is fine"; "broke fast"];
                 product_star_rating := Some "4.5 out of 5" |}
  /\ scrape_reviews_concurrently "Widget" "B0CHWRXH8B" both_pages last_first 2
     = Return {| titles := [(KInt 11, "Bad"); (KInt 1, "Great"); (KInt 2, "OK")];
                 reviews := ["broke fast"; "love it"; "it is fine"];
                 product_star_rating := Some "4.5 out of 5" |}
  /\ (page_bodies "Widget" "B0CHWRXH8B" both_pages 1
      ++ page_bodies "Widget" "B0CHWRXH8B" both_pages 2)%list
     = ["love it"; "it is fine"; "broke fast"].
Proof.
  split; [apply in_order_is_completion_order|].
  split; [apply last_first_is_completion_order|].
  repeat split; vm_compute; reflexivity.
Qed.

(** C3, as the claim states it, fails: asking for no page at all is
    answered with an ordinary, empty corpus. *)
Lemma no_pages_is_not_a_failure :
  ~ failure_exactly_when_no_page "Widget" "B0CHWRXH8B" both_pages in_order 0.
Proof.
  unfold failure_exactly_when_no_page. intros [_ H].
  assert (Hlt : 0 < 1) by lia.
  specialize (H (or_introl Hlt)). vm_compute in H. discriminate H.
Qed.

(** C3, amended.  [scrape_reviews_concurrently] never fails: whatever the
    number of pages and the outcome of the fetches it returns a corpus; when
    fewer than one page is asked for, or every page fails, the corpus it
    returns is the empty one. *)
Theorem scrape_always_returns_a_corpus
    (product product_id : string) (requests_get : string -> result response)
    (as_completed : list Z -> list Z) (total_pages : Z) :
  raised (scrape_reviews_concurrently product product_id requests_get
            as_completed total_pages) = false
  /\ (completion_order as_completed ->
      (total_pages < 1
       \/ forall p, 1 <= p <= total_pages ->
            page_failed (scrape_page product product_id requests_get p) = true) ->
      scrape_reviews_concurrently product product_id requests_get
        as_completed total_pages = Return empty_corpus).
Proof.
  split; [reflexivity|].
  intros Hperm H. rewrite scrape_is_merged. f_equal.
  apply merged_all_failed. intros p Hp.
  apply (completed_pages as_completed total_pages p Hperm) in Hp.
  destruct H as [H|H]; [lia|]. apply H. exact Hp.
Qed.

Lemma scrape_always_returns_a_corpus_witness :
  (completion_order in_order
   /\ forall p, 1 <= p <= 2 ->
        page_failed (scrape_page "Widget" "B0CHWRXH8B"
                       (serve (Raise RequestException) (unavailable page_two)) p) = true)
  /\ scrape_reviews_concurrently "Widget" "B0CHWRXH8B"
       (serve (Raise RequestException) (unavailable page_two)) in_order 2
     = Return empty_corpus.
Proof.
  assert (Hfail : forall p, 1 <= p <= 2 ->
            page_failed (scrape_page "Widget" "B0CHWRXH8B"
              (serve (Raise RequestException) (unavailable page_two)) p) = true).
  { intros p Hp. assert (Hc : p = 1 \/ p = 2) by lia.
    destruct Hc as [-> | ->]; reflexivity. }
  split; [split; [apply in_order_is_completion_order | exact Hfail]|].
  apply (proj2 (scrape_always_returns_a_corpus "Widget" "B0CHWRXH8B"
                  (serve (Raise RequestException) (unavailable page_two))
                  in_order 2)).
  - apply in_order_is_completion_order.
  - right. exact Hfail.
Defined.

(* ================================================================== *)
(** * Facts about the lexicon classifier *)
(* ================================================================== *)

Lemma float_gt_lt (x y : Q) : float_gt x y = true <-> (y < x)%Q.
Proof.
  unfold float_gt. rewrite (Qgt_alt x y).
  destruct (x ?= y)%Q; split; congruence.
Qed.

Lemma float_lt_lt (x y : Q) : float_lt x y = true <-> (x < y)%Q.
Proof.
  unfold float_lt. rewrite Qlt_alt.
  destruct (x ?= y)%Q; split; congruence.
Qed.

Lemma float_gt_le (x y : Q) : float_gt x y = false <-> (x <= y)%Q.
Proof.
  split.
  - intros H. apply Qnot_lt_le. intros Hlt. apply float_gt_lt in Hlt. congruence.
  - intros H. destruct (float_gt x y) eqn:E; [|reflexivity].
    apply float_gt_lt in E. exfalso. apply (Qlt_not_le _ _ E). exact H.
Qed.

Lemma float_lt_le (x y : Q) : float_lt x y = false <-> (y <= x)%Q.
Proof.
  split.
  - intros H. apply Qnot_lt_le. intros Hlt. apply float_lt_lt in Hlt. congruence.
  - intros H. destruct (float_lt x y) eqn:E; [|reflexivity].
    apply float_lt_lt in E. exfalso. apply (Qlt_not_le _ _ E). exact H.
Qed.

Section AnalyzerFacts.
Variable fl : Q -> Q.
Variable compound : string -> Q.

(** A review with tokens always has a score. *)
Lemma score_of_non_empty (w : string) (ws : list string) :
  score_of fl compound (w :: ws)
  = Return (fl (fsum fl (map compound (w :: ws))
                / inject_Z (Z.of_nat (List.length (w :: ws))))%Q).
Proof.
  unfold score_of, fdiv.
  destruct (Z.of_nat (List.length (w :: ws)) =? 0) eqn:E; [|reflexivity].
  apply Z.eqb_eq in E. simpl in E. lia.
Qed.

(** One turn of the loop on a review with tokens: the label is the one
    the ordered thresholds give. *)
Lemma analyze_review_label (c : sentiment_counts) (sents : list string)
    (review : list string) (score : Q) :
  review <> [] ->
  score_of fl compound review = Return score ->
  analyze_review fl compound (c, sents) review
  = Return (count_label (threshold_label score) c,
            (sents ++ [sentiment_name (threshold_label score)])%list).
Proof.
  intros Hne Hs. destruct review as [|w ws]; [contradiction|].
  unfold analyze_review. rewrite Hs. simpl.
  unfold threshold_label.
  destruct (Qlt_le_dec double_0_05 score) as [H1|H1].
  { apply float_gt_lt in H1. rewrite H1. reflexivity. }
  apply float_gt_le in H1. rewrite H1.
  destruct (Qlt_le_dec 0 score) as [H2|H2].
  { apply float_gt_lt in H2. rewrite H2. reflexivity. }
  apply float_gt_le in H2. rewrite H2.
  destruct (Qlt_le_dec score (- double_0_05)) as [H3|H3].
  { apply float_lt_lt in H3. rewrite H3. reflexivity. }
  apply float_lt_le in H3. rewrite H3.
  destruct (Qlt_le_dec score 0) as [H4|H4].
  { apply float_lt_lt in H4. rewrite H4. reflexivity. }
  apply float_lt_le in H4. rewrite H4. reflexivity.
Qed.

Lemma sum_values_count_label (l : label) (c : sentiment_counts) :
  sum_values (count_label l c) = S (sum_values c).
Proof. destruct l; unfold sum_values; simpl; lia. Qed.

Lemma analyze_from_cons (st : state) (review : list string)
    (reviews : list (list string)) :
  analyze_from fl compound st (review :: reviews)
  = Py.bind (analyze_review fl compound st review)
            (fun st' => analyze_from fl compound st' reviews).
Proof. reflexivity. Qed.

(** The loop, from any state: it returns, and it has added one label and
    one count for each review with tokens. *)
Lemma analyze_from_counts (reviews : list (list string)) :
  forall c sents,
  exists c' sents',
    analyze_from fl compound (c, sents) reviews = Return (c', sents')
    /\ List.length sents'
       = (List.length sents + List.length (non_empty reviews))%nat
    /\ sum_values c' = (sum_values c + List.length (non_empty reviews))%nat.
Proof.
  induction reviews as [|review reviews IH]; intros c sents.
  - exists c, sents. simpl. repeat split; lia.
  - destruct review as [|w ws].
    + simpl. apply IH.
    + rewrite analyze_from_cons.
      rewrite (analyze_review_label c sents (w :: ws)
                 _ ltac:(discriminate) (score_of_non_empty w ws)).
      simpl. 
      destruct (IH (count_label (threshold_label
                      (fl (fsum fl (map compound (w :: ws))
                        / inject_Z (Z.of_nat (List.length (w :: ws))))%Q)) c)
                   (sents ++ [sentiment_name (threshold_label
                      (fl (fsum fl (map compound (w :: ws))
                        / inject_Z (Z.of_nat (List.length (w :: ws))))%Q))])%list)
        as [c' [sents' [Hr [Hl Hc]]]].
      exists c', sents'. split; [exact Hr|].
      rewrite Hl, Hc, sum_values_count_label, length_app. simpl. lia.
Qed.

(** Empty reviews can be dropped from the input without changing the
    outcome. *)
Lemma analyze_from_non_empty (reviews : list (list string)) : forall st,
  analyze_from fl compound st (non_empty reviews)
  = analyze_from fl compound st reviews.
Proof.
  induction reviews as [|review reviews IH]; intros st; [reflexivity|].
  destruct review as [|w ws].
  - simpl. destruct st as [c sents]. simpl. apply IH.
  - simpl non_empty. rewrite !analyze_from_cons.
    destruct (analyze_review fl compound st (w :: ws)) as [st'|e];
      simpl; [apply IH | reflexivity].
Qed.
End AnalyzerFacts.

Lemma non_empty_length (reviews : list (list string)) :
  (List.length (non_empty reviews) <= List.length reviews)%nat.
Proof. apply filter_length_le. Qed.

(* ================================================================== *)
(** * The lexicon classifier's properties *)
(* ================================================================== *)

Lemma fold_left_over_map {A B C} (f : A -> B -> A) (g : C -> B) (l : list C) :
  forall a, fold_left f (map g l) a = fold_left (fun a x => f a (g x)) l a.
Proof. induction l as [|x l IH]; intros a; simpl; [reflexivity | apply IH]. Qed.




(** C6.  A review without tokens is skipped: the turn of the loop leaves
    the counts and the per-item sequence as they were, so the outcome is
    that of the input without its empty reviews; the classifier returns,
    the per-item sequence has one label for each review with tokens and so
    have the counts in total, which is at most, and can be less than, the
    number of reviews given. *)
Theorem empty_reviews_are_skipped
    (fl : Q -> Q) (compound : string -> Q) (reviews : list (list string)) :
  (forall st, analyze_review fl compound st [] = Return st)
  /\ analyze_sentiment fl compound (non_empty reviews)
     = analyze_sentiment fl compound reviews
  /\ (exists c sents,
        analyze_sentiment fl compound reviews = Return (c, sents)
        /\ List.length sents = List.length (non_empty reviews)
        /\ sum_values c = List.length (non_empty reviews)
        /\ (List.length sents <= List.length reviews)%nat)
  /\ analyze_sentiment fl compound ([] :: reviews)
     = analyze_sentiment fl compound reviews
  /\ analyze_sentiment fl compound [[]] = Return (zero_counts, []).
Proof.
  split; [intros [c sents]; reflexivity|].
  split; [apply analyze_from_non_empty|].
  split; [|split; reflexivity].
  destruct (analyze_from_counts fl compound reviews zero_counts [])
    as [c [sents [Hr [Hl Hc]]]].
  exists c, sents. split; [exact Hr|].
  simpl in Hl, Hc. repeat split; try assumption.
  rewrite Hl. apply non_empty_length.
Qed.

(* ================================================================== *)
(** * Facts about the reports and the snapshot *)
(* ================================================================== *)

Lemma io_for_print {A} (body : A -> io unit) (f : A -> string) (l : list A) :
  (forall a, body a = print (f a)) -> io_for l body = (map f l, Return tt).
Proof.
  intros H. induction l as [|a l IH]; [reflexivity|].
  simpl. rewrite H, IH. reflexivity.
Qed.

Lemma truediv_nat (fl : Q -> Q) (part total : nat) :
  truediv fl (Z.of_nat part) (Z.of_nat total)
  = match total with
    | O => Raise ZeroDivisionError
    | S _ => Return (fl (inject_Z (Z.of_nat part) / inject_Z (Z.of_nat total))%Q)
    end.
Proof.
  unfold truediv. destruct total as [|n]; [reflexivity|].
  destruct (Z.of_nat (S n) =? 0) eqn:E; [|reflexivity].
  apply Z.eqb_eq in E. lia.
Qed.

(** The whole of the lexicon report. *)
Lemma display_SIA_results_lines (fl : Q -> Q) (c : sentiment_counts)
    (product_star_rating : option string) (review_sentiments : list string)
    (titles : dict key string) :
  display_SIA_results fl c product_star_rating review_sentiments titles
  = match sum_values c with
    | O => (count_lines c, Raise ZeroDivisionError)
    | S _ =>
        ((count_lines c
          ++ summary_lines fl c
          ++ map pairing_line (zip (enumerate 1 review_sentiments) titles)
          ++ closing_lines fl c product_star_rating)%list,
         Return tt)
    end.
Proof.
  unfold display_SIA_results. rewrite !truediv_nat.
  rewrite (io_for_print _ pairing_line)
    by (intros [[idx sentiment] [idx_title review_title]]; reflexivity).
  unfold count_lines, summary_lines, closing_lines, overall_positive_line,
    rating_line, percentage.
  destruct (sum_values c) as [|n]; reflexivity.
Qed.

Lemma json_round_trip_reviews (reviews : list string) :
  json_load (json_dump (py_reviews reviews)) = py_reviews reviews.
Proof.
  unfold py_reviews. simpl. f_equal. rewrite !map_map. reflexivity.
Qed.

Lemma json_round_trip_star_rating (star_rating : option string) :
  json_load (json_dump (py_star_rating star_rating)) = py_star_rating star_rating.
Proof. destruct star_rating; reflexivity. Qed.

(** Loading the file just saved: the reviews and the rating come back as
    they were, the titles as [json] hands back a dumped dictionary. *)
Lemma load_after_save (fs : filesystem) (file_path : string)
    (titles : dict key string) (reviews : list string)
    (star_rating : option string) :
  load_reviews_from_file
    (save_reviews_to_file fs file_path titles reviews star_rating) file_path
  = Return (json_load (json_dump (py_titles titles)),
            py_reviews reviews, py_star_rating star_rating).
Proof.
  unfold load_reviews_from_file, save_reviews_to_file, write_file.
  rewrite String.eqb_refl.
  rewrite <- (json_round_trip_reviews reviews) at 2.
  rewrite <- (json_round_trip_star_rating star_rating) at 2.
  reflexivity.
Qed.

(** The integer the fixed notation prints is a nearest one. *)
Lemma round_half_even_nearest (q : Q) :
  (Qabs (inject_Z (round_half_even q) - q) <= 1 # 2)%Q.
Proof.
  unfold round_half_even.
  pose proof (Qfloor_le q) as Hlo.
  pose proof (Qlt_floor q) as Hhi.
  rewrite inject_Z_plus in Hhi. change (inject_Z 1) with 1%Q in Hhi.
  apply Qabs_Qle_condition.
  destruct (q - inject_Z (Qfloor q) ?= 1 # 2)%Q eqn:E.
  - apply Qeq_alt in E. destruct (Z.even (Qfloor q)).
    + split; lra.
    + rewrite inject_Z_plus. change (inject_Z 1) with 1%Q. split; lra.
  - apply Qlt_alt in E. split; lra.
  - apply Qgt_alt in E. rewrite inject_Z_plus. change (inject_Z 1) with 1%Q.
    split; lra.
Qed.

(* ================================================================== *)
(** * The reports' and the snapshot's properties *)
(* ================================================================== *)

(** C9.  With counts that sum to zero [display_SIA_results] raises
    [ZeroDivisionError] after the lines of counts and prints no percentage;
    with a positive sum it returns, and each percentage it prints is the
    sum of the selected counts divided by the total, formatted with the
    [.4%] format.  For [display_BERT_results] likewise: no prediction, a
    [ZeroDivisionError] before anything is printed; otherwise the share of
    positive predictions, formatted the same way.  The format prints a
    nearest multiple of one ten-thousandth of a percent. *)
Theorem percentages_fail_on_no_items
    (fl : Q -> Q) (c : sentiment_counts) (product_star_rating : option string)
    (review_sentiments : list string) (titles : dict key string)
    (predictions : list string) :
  display_SIA_results fl c product_star_rating review_sentiments titles
  = match sum_values c with
    | O => (count_lines c, Raise ZeroDivisionError)
    | S _ =>
        ((count_lines c
          ++ summary_lines fl c
          ++ map pairing_line (zip (enumerate 1 review_sentiments) titles)
          ++ closing_lines fl c product_star_rating)%list,
         Return tt)
    end
  /\ overall_positive_BERT fl predictions
     = match predictions with
       | [] => Raise ZeroDivisionError
       | _ :: _ =>
           Return (percentage fl
                     (List.length
                        (filter (fun pred => String.eqb pred "positive") predictions))
                     (List.length predictions))
       end
  /\ display_BERT_results fl titles [] product_star_rating
     = ([], Raise ZeroDivisionError)
  /\ (forall x,
        format_percent4 fl x
        = format_f4 (fl (x * inject_Z 100)%Q) ++ "%"
        /\ (Qabs (inject_Z (round_half_even
                              (Qabs (fl (x * inject_Z 100)) * inject_Z 10000))
                  - Qabs (fl (x * inject_Z 100)) * inject_Z 10000) <= 1 # 2)%Q)
  /\ percentage exact 3 4 = "75.0000%"
  /\ percentage exact 2 3 = "66.6667%"
  /\ percentage exact 1 8 = "12.5000%".
Proof.
  split; [apply display_SIA_results_lines|].
  split.
  { unfold overall_positive_BERT. rewrite truediv_nat.
    destruct predictions; reflexivity. }
  split; [reflexivity|].
  split.
  { intros x. split; [reflexivity | apply round_half_even_nearest]. }
  repeat split; vm_compute; reflexivity.
Qed.

(** C2.  The titles do not come back from the snapshot as they went in:
    the scraper's integer keys are written as strings and read back as
    strings.  For page 1 of the two-page product the titles [{1: "Great",
    2: "OK"}] are loaded as [{"1": "Great", "2": "OK"}]; the reviews and
    the rating are unchanged.  The model report, which subtracts one from
    each key, works on the scraped titles and raises [TypeError] on the
    loaded ones. *)
Theorem titles_keys_become_strings :
  exists c loaded,
    scrape_reviews_concurrently "Widget" "B0CHWRXH8B" both_pages in_order 1
    = Return c
    /\ titles c = [(KInt 1, "Great"); (KInt 2, "OK")]
    /\ load_reviews_from_file
         (save_reviews_to_file no_files "B0CHWRXH8B_reviews.json"
            (titles c) (reviews c) (product_star_rating c))
         "B0CHWRXH8B_reviews.json"
       = Return (loaded, py_reviews (reviews c),
                 py_star_rating (product_star_rating c))
    /\ loaded = PDict [(KStr "1", PStr "Great"); (KStr "2", PStr "OK")]
    /\ loaded <> py_titles (titles c)
    /\ snd (display_BERT_results exact (titles c) ["positive"; "negative"]
              (product_star_rating c)) = Return tt
    /\ snd (display_BERT_results exact (as_titles loaded) ["positive"; "negative"]
              (product_star_rating c)) = Raise TypeError.
Proof.
  eexists. eexists.
  split; [vm_compute; reflexivity|].
  split; [reflexivity|].
  split; [vm_compute; reflexivity|].
  split; [reflexivity|].
  split; [discriminate|].
  split; vm_compute; reflexivity.
Qed.

(** C4.  The lexicon report pairs the labels with the titles by position.
    Of two reviews titled "Great" and "OK" the first keeps no token of the
    vocabulary and is skipped, the second is labelled positive; the report
    prints that label against the first title, "Review 1: Great ->
    positive", while the review it was computed from is number 2, titled
    "OK". *)
Theorem report_pairs_titles_by_position :
  let titles := [(KInt 1, "Great"); (KInt 2, "OK")] in
  let validated_reviews := validate_reviews [["thing"]; ["good"]] ["good"; "bad"] in
  validated_reviews = [[]; ["good"]]
  /\ exists c,
       analyze_sentiment exact lexicon validated_reviews = Return (c, ["positive"])
       /\ (exists before after,
             display_SIA_results exact c (Some "4.5 out of 5") ["positive"] titles
             = ((before ++ ["Review 1: Great -> positive"] ++ after)%list, Return tt)
             /\ List.length before = 9%nat
             /\ List.length after = 2%nat)
       /\ paired_by_review titles validated_reviews ["positive"]
          = [(2, Some "OK", "positive")].
Proof.
  cbv zeta. split; [reflexivity|].
  eexists. split; [vm_compute; reflexivity|].
  split; [|reflexivity].
  exists (count_lines {| very_positive := 0; positive := 1; negative := 0;
                         very_negative := 0; neutral := 0 |}
          ++ summary_lines exact
               {| very_positive := 0; positive := 1; negative := 0;
                  very_negative := 0; neutral := 0 |})%list.
  exists (closing_lines exact
            {| very_positive := 0; positive := 1; negative := 0;
               very_negative := 0; neutral := 0 |} (Some "4.5 out of 5")).
  split; [|split; reflexivity].
  vm_compute. reflexivity.
Qed.

(* ================================================================== *)
(** * The rating and the titles of the scraped corpus *)
(* ================================================================== *)

(** C7.  The rating of the corpus comes from page 1 only: merging the
    result of any other page leaves the rating as it was, and when the
    fetch of page 1 fails the corpus returned has no rating, whatever the
    other pages show and in whatever order the pages complete. *)
Theorem star_rating_only_from_page_one
    (product product_id : string) (requests_get : string -> result response) :
  (forall p acc,
     p = 1
     \/ product_star_rating
          (merge_future acc (scrape_page product product_id requests_get p))
        = product_star_rating acc)
  /\ (forall as_completed total_pages,
        page_failed (scrape_page product product_id requests_get 1) = true ->
        exists c,
          scrape_reviews_concurrently product product_id requests_get
            as_completed total_pages = Return c
          /\ product_star_rating c = None).
Proof.
  split.
  - intros p acc. destruct (Z.eq_dec p 1) as [Hp|Hp]; [left; exact Hp|].
    right. apply merge_star_other. exact Hp.
  - intros as_completed total_pages H. eexists.
    split; [apply scrape_is_merged|].
    rewrite merged_star_failed by exact H. reflexivity.
Qed.

Lemma star_rating_only_from_page_one_witness :
  page_failed (scrape_page "Widget" "B0CHWRXH8B" page_one_down 1) = true
  /\ rating_out_of_text page_two = Some "1.0 out of 5"
  /\ exists c,
       scrape_reviews_concurrently "Widget" "B0CHWRXH8B" page_one_down
         last_first 2 = Return c
       /\ product_star_rating c = None.
Proof.
  split; [reflexivity|]. split; [reflexivity|].
  apply (proj2 (star_rating_only_from_page_one "Widget" "B0CHWRXH8B" page_one_down)
           last_first 2).
  reflexivity.
Defined.




(** C10.  When page 1 comes back with status 200, its titles can be taken
    apart and it has no rating element, the rating of the corpus is the
    string "Not found": a truthy value, which the snapshot stores as that
    string and the lexicon report prints as the product's star rating. *)
Theorem missing_rating_is_not_found
    (product product_id : string) (requests_get : string -> result response)
    (as_completed : list Z -> list Z) (total_pages : Z) (resp : response) :
  completion_order as_completed ->
  1 <= total_pages ->
  requests_get (current_url product product_id 1) = Return resp ->
  status_code resp = 200 ->
  rating_out_of_text (content resp) = None ->
  raised (review_titles_of (content resp)) = false ->
  exists c,
    scrape_reviews_concurrently product product_id requests_get
      as_completed total_pages = Return c
    /\ product_star_rating c = Some "Not found"
    /\ truthy_str (product_star_rating c) = true
    /\ (forall fs file_path,
          load_reviews_from_file
            (save_reviews_to_file fs file_path (titles c) (reviews c)
               (product_star_rating c)) file_path
          = Return (json_load (json_dump (py_titles (titles c))),
                    py_reviews (reviews c), PStr "Not found"))
    /\ (forall fl counts review_sentiments,
          sum_values counts <> 0%nat ->
          exists lines,
            display_SIA_results fl counts (product_star_rating c)
              review_sentiments (titles c)
            = ((lines ++ [rating_line (Some "Not found")])%list, Return tt)
            /\ rating_line (Some "Not found")
               = nl ++ "Compare to the product's star rating of Not found").
Proof.
  intros Hperm Htotal Hget Hstatus Hrating Htitles.
  assert (E : exists pt pr,
             scrape_page product product_id requests_get 1
             = Return (1, pt, pr, Some "Not found")).
  { unfold scrape_page, get_soup. rewrite Hget. simpl.
    apply Z.eqb_eq in Hstatus. rewrite Hstatus. simpl. rewrite Hrating.
    destruct (review_titles_of (content resp)) as [pt|e]; [|discriminate].
    simpl. eexists. eexists. reflexivity. }
  destruct E as [pt [pr E]].
  assert (Hstar : product_star_rating
                    (merged product product_id requests_get
                       (as_completed (range 1 (total_pages + 1))) empty_corpus)
                  = Some "Not found").
  { eapply merged_star_one; [exact E | discriminate |].
    right. apply completed_pages; [exact Hperm | lia]. }
  eexists. split; [apply scrape_is_merged|].
  split; [exact Hstar|].
  split; [rewrite Hstar; reflexivity|].
  split.
  - intros fs file_path. rewrite load_after_save, Hstar. reflexivity.
  - intros fl counts review_sentiments Hsum.
    rewrite display_SIA_results_lines, Hstar.
    destruct (sum_values counts) as [|k] eqn:Ek; [contradiction|].
    exists (count_lines counts ++ summary_lines fl counts
            ++ map pairing_line
                 (zip (enumerate 1 review_sentiments)
                    (titles (merged product product_id requests_get
                               (as_completed (range 1 (total_pages + 1)))
                               empty_corpus)))
            ++ [overall_positive_line fl counts])%list.
    split; [|reflexivity].
    rewrite <- !app_assoc. reflexivity.
Qed.

Lemma missing_rating_is_not_found_witness :
  (completion_order in_order
   /\ 1 <= 2
   /\ unrated (current_url "Widget" "B0CHWRXH8B" 1) = ok page_one_unrated
   /\ rating_out_of_text page_one_unrated = None
   /\ raised (review_titles_of page_one_unrated) = false)
  /\ exists c,
       scrape_reviews_concurrently "Widget" "B0CHWRXH8B" unrated in_order 2
       = Return c
       /\ product_star_rating c = Some "Not found".
Proof.
  split.
  - repeat split; try reflexivity; try lia. apply in_order_is_completion_order.
  - destruct (missing_rating_is_not_found "Widget" "B0CHWRXH8B" unrated in_order 2
                {| status_code := 200; content := page_one_unrated |}
                in_order_is_completion_order ltac:(lia)
                eq_refl eq_refl eq_refl eq_refl)
      as [c [Hc [Hs _]]].
    exists c. split; assumption.
Defined.

(* ================================================================== *)
(** * Further properties of the lexicon classifier *)
(* ================================================================== *)

Lemma analyze_from_labels (fl : Q -> Q) (compound : string -> Q)
    (reviews : list (list string)) :
  forall c sents,
  analyze_from fl compound (c, sents) reviews
  = Return (fold_left (fun c review =>
                         count_label (threshold_label (mean_score fl compound review)) c)
                      (non_empty reviews) c,
            (sents ++ map (review_sentiment fl compound) (non_empty reviews))%list).
Proof.
  induction reviews as [|review reviews IH]; intros c sents.
  - simpl. rewrite app_nil_r. reflexivity.
  - destruct review as [|w ws].
    + simpl. apply IH.
    + rewrite analyze_from_cons.
      rewrite (analyze_review_label fl compound c sents (w :: ws)
                 _ ltac:(discriminate) (score_of_non_empty fl compound w ws)).
      simpl Py.bind. rewrite IH. simpl non_empty. simpl fold_left. simpl map.
      rewrite <- app_assoc. reflexivity.
Qed.

Lemma fold_count_label_fields (labels : list label) : forall c,
  let c' := fold_left (fun c l => count_label l c) labels c in
  very_positive c'
  = (very_positive c + occurrences "very positive" (map sentiment_name labels))%nat
  /\ positive c'
     = (positive c + occurrences "positive" (map sentiment_name labels))%nat
  /\ negative c'
     = (negative c + occurrences "negative" (map sentiment_name labels))%nat
  /\ very_negative c'
     = (very_negative c + occurrences "very negative" (map sentiment_name labels))%nat
  /\ neutral c'
     = (neutral c + occurrences "neutral" (map sentiment_name labels))%nat.
Proof.
  induction labels as [|l labels IH]; intros c; simpl.
  - unfold occurrences. simpl. repeat split; lia.
  - destruct (IH (count_label l c)) as [H1 [H2 [H3 [H4 H5]]]].
    simpl in H1, H2, H3, H4, H5. rewrite H1, H2, H3, H4, H5.
    unfold occurrences.
    destruct l; simpl; repeat split; lia.
Qed.

(** X1.  The per-item sequence holds, in the order of the input, the text
    for each review that has tokens, and each text depends on its own
    review only. *)
Theorem labels_follow_the_reviews
    (fl : Q -> Q) (compound : string -> Q) (reviews : list (list string)) :
  exists c,
    analyze_sentiment fl compound reviews
    = Return (c, map (review_sentiment fl compound) (non_empty reviews)).
Proof.
  eexists. unfold analyze_sentiment. rewrite analyze_from_labels. reflexivity.
Qed.

(** X2.  The two results of the classifier agree: each of the five counts
    is the number of times its text occurs in the per-item sequence, and no
    other text occurs. *)
Theorem counts_agree_with_labels
    (fl : Q -> Q) (compound : string -> Q) (reviews : list (list string)) :
  exists c sents,
    analyze_sentiment fl compound reviews = Return (c, sents)
    /\ very_positive c = occurrences "very positive" sents
    /\ positive c = occurrences "positive" sents
    /\ negative c = occurrences "negative" sents
    /\ very_negative c = occurrences "very negative" sents
    /\ neutral c = occurrences "neutral" sents
    /\ Forall (fun s => In s ["very positive"; "positive"; "negative";
                              "very negative"; "neutral"]) sents.
Proof.
  eexists. eexists. split.
  { unfold analyze_sentiment. rewrite analyze_from_labels. reflexivity. }
  simpl app. unfold review_sentiment. rewrite <- map_map.
  rewrite <- (fold_left_over_map
                (fun c l => count_label l c)
                (fun review => threshold_label (mean_score fl compound review))).
  destruct (fold_count_label_fields
              (map (fun review => threshold_label (mean_score fl compound review))
                   (non_empty reviews)) zero_counts)
    as [H1 [H2 [H3 [H4 H5]]]].
  simpl in H1, H2, H3, H4, H5.
  repeat split; try assumption.
  apply Forall_forall. intros s Hs. apply in_map_iff in Hs.
  destruct Hs as [l [<- _]]. destruct l; simpl; auto 6.
Qed.




Lemma validate_out_of_vocabulary (reviews : list (list string)) (vocab : list string) :
  (forall review token, In review reviews -> In token review -> ~ In token vocab) ->
  non_empty (validate_reviews reviews vocab) = [].
Proof.
  intros H. induction reviews as [|review reviews IH]; [reflexivity|].
  unfold validate_reviews in *. simpl.
  assert (Hempty : filter (fun token => existsb (String.eqb token) vocab) review = []).
  { assert (Hrev : forall token, In token review -> ~ In token vocab)
      by (intros token Ht; apply (H review token); [left; reflexivity | exact Ht]).
    clear -Hrev. induction review as [|token review IHr]; [reflexivity|].
    simpl. destruct (existsb (String.eqb token) vocab) eqn:E.
    - exfalso. apply existsb_exists in E. destruct E as [x [Hx Heq]].
      apply String.eqb_eq in Heq. subst x.
      apply (Hrev token); [left; reflexivity | exact Hx].
    - apply IHr. intros t Ht. apply Hrev. right. exact Ht. }
  rewrite Hempty. simpl. apply IH.
  intros r t Hr. apply H. right. exact Hr.
Qed.

(** X5.  When no token that preprocessing leaves is in the vocabulary (in
    particular when there is no review at all), the classifier returns
    zero counts and no label, and the lexicon report raises
    [ZeroDivisionError] after the lines of counts: the chain of [main] from
    the preprocessing to the first report stops there. *)
Theorem no_vocabulary_token_stops_the_report
    (fl : Q -> Q) (compound : string -> Q)
    (isalpha : string -> bool) (lower : string -> string)
    (word_tokenize : string -> list string) (lemmatize : string -> string)
    (stop_words adj_vocab : list string) (reviews : list string)
    (titles : dict key string) (product_star_rating : option string) :
  (forall review token,
     In review (preprocess_reviews isalpha lower word_tokenize lemmatize
                  stop_words reviews) ->
     In token review -> ~ In token adj_vocab) ->
  let cleaned_reviews :=
    preprocess_reviews isalpha lower word_tokenize lemmatize stop_words reviews in
  let validated_reviews := validate_reviews cleaned_reviews adj_vocab in
  analyze_sentiment fl compound validated_reviews = Return (zero_counts, [])
  /\ io_bind (lift (analyze_sentiment fl compound validated_reviews))
       (fun r => display_SIA_results fl (fst r) product_star_rating (snd r) titles)
     = (count_lines zero_counts, Raise ZeroDivisionError).
Proof.
  intros H cleaned_reviews validated_reviews.
  assert (Ha : analyze_sentiment fl compound validated_reviews
               = Return (zero_counts, [])).
  { unfold analyze_sentiment. rewrite analyze_from_labels.
    unfold validated_reviews, cleaned_reviews.
    rewrite (validate_out_of_vocabulary _ _ H). reflexivity. }
  split; [exact Ha|].
  rewrite Ha. unfold lift, io_bind. cbv beta iota. simpl fst. simpl snd.
  rewrite display_SIA_results_lines. reflexivity.
Qed.

Lemma no_vocabulary_token_stops_the_report_witness :
  (forall review token,
     In review (preprocess_reviews (fun _ => true) (fun t => t)
                  (fun _ => ["nice"; "thing"]) (fun t => t)
                  ["the"] ["nice thing!"]) ->
     In token review -> ~ In token ["good"; "bad"])
  /\ analyze_sentiment exact lexicon
       (validate_reviews
          (preprocess_reviews (fun _ => true) (fun t => t)
             (fun _ => ["nice"; "thing"]) (fun t => t)
             ["the"] ["nice thing!"])
          ["good"; "bad"])
     = Return (zero_counts, []).
Proof.
  assert (H : forall review token,
     In review (preprocess_reviews (fun _ => true) (fun t => t)
                  (fun _ => ["nice"; "thing"]) (fun t => t)
                  ["the"] ["nice thing!"]) ->
     In token review -> ~ In token ["good"; "bad"]).
  { intros review token Hr Ht Hin. vm_compute in Hr.
    destruct Hr as [<-|[]]. simpl in Ht, Hin.
    destruct Ht as [<-|[<-|[]]]; destruct Hin as [Hin|[Hin|[]]]; discriminate Hin. }
  split; [exact H|].
  apply (proj1 (no_vocabulary_token_stops_the_report exact lexicon
                  (fun _ => true) (fun t => t)
                  (fun _ => ["nice"; "thing"]) (fun t => t) ["the"]
                  ["good"; "bad"] ["nice thing!"] [] None H)).
Defined.

(* ================================================================== *)
(** * Further properties of the reports *)
(* ================================================================== *)

Lemma io_for_print_in {A} (body : A -> io unit) (f : A -> string) (l : list A) :
  (forall a, In a l -> body a = print (f a)) -> io_for l body = (map f l, Return tt).
Proof.
  induction l as [|a l IH]; intros H; [reflexivity|].
  simpl. rewrite (H a) by (left; reflexivity).
  rewrite IH by (intros b Hb; apply H; right; exact Hb). reflexivity.
Qed.

Lemma io_for_app {A} (body : A -> io unit) (l1 l2 : list A) :
  io_for (l1 ++ l2)%list body
  = io_bind (io_for l1 body) (fun _ => io_for l2 body).
Proof.
  induction l1 as [|a l1 IH]; simpl.
  - destruct (io_for l2 body) as [out r]. reflexivity.
  - rewrite IH. destruct (body a) as [out [[]|e]]; simpl; [|reflexivity].
    destruct (io_for l1 body) as [out1 [[]|e1]]; simpl; [|reflexivity].
    destruct (io_for l2 body) as [out2 r2]. rewrite app_assoc. reflexivity.
Qed.

Lemma getitem_in_range {A} (l : list A) (i : Z) (d : A) :
  0 <= i < Z.of_nat (List.length l) ->
  getitem l i = Return (nth (Z.to_nat i) l d).
Proof.
  intros H. unfold getitem, index.
  replace ((0 <=? i) && (i <? Z.of_nat (List.length l))) with true
    by (symmetry; apply andb_true_iff; split; [apply Z.leb_le | apply Z.ltb_lt]; lia).
  rewrite (nth_error_nth' l d) by lia. reflexivity.
Qed.

Lemma getitem_out_of_range {A} (l : list A) (i : Z) :
  Z.of_nat (List.length l) <= i \/ i < - Z.of_nat (List.length l) ->
  getitem l i = Raise IndexError.
Proof.
  intros H. unfold getitem.
  replace ((0 <=? i) && (i <? Z.of_nat (List.length l))) with false.
  - replace ((- Z.of_nat (List.length l) <=? i) && (i <? 0)) with false;
      [reflexivity|].
    symmetry. apply andb_false_iff.
    destruct H as [H|H]; [right; apply Z.ltb_ge | left; apply Z.leb_gt]; lia.
  - symmetry. apply andb_false_iff.
    destruct H as [H|H]; [right; apply Z.ltb_ge | left; apply Z.leb_gt]; lia.
Qed.

(** The turn of the loop of [display_BERT_results] for one title. *)
Lemma bert_turn_in_range (predictions : list string) (it : key * string) :
  key_in_range (List.length predictions) (fst it) = true ->
  (let '(idx, title) := it in
   io_bind (lift (match idx with
                  | KInt z => Return (z - 1)
                  | KStr _ => Raise TypeError
                  end))
     (fun i => io_bind (lift (getitem predictions i))
        (fun pred => print ("Review " ++ str_of_key idx ++ ": " ++ title
                            ++ " -> " ++ pred))))
  = print (bert_line predictions it).
Proof.
  destruct it as [[z|s] title]; simpl; intros H; [|discriminate].
  apply andb_true_iff in H. destruct H as [H1 H2].
  apply Z.leb_le in H1. apply Z.leb_le in H2.
  unfold lift, io_bind.
  rewrite (getitem_in_range predictions (z - 1) "") by lia. reflexivity.
Qed.

Lemma bert_turn_out_of_range (predictions : list string) (it : key * string) :
  key_out_of_range (List.length predictions) (fst it) = true ->
  (let '(idx, title) := it in
   io_bind (lift (match idx with
                  | KInt z => Return (z - 1)
                  | KStr _ => Raise TypeError
                  end))
     (fun i => io_bind (lift (getitem predictions i))
        (fun pred => print ("Review " ++ str_of_key idx ++ ": " ++ title
                            ++ " -> " ++ pred))))
  = ([], Raise (key_error (fst it))).
Proof.
  destruct it as [[z|s] title]; simpl; intros H; [|reflexivity].
  apply orb_true_iff in H.
  unfold lift, io_bind. rewrite getitem_out_of_range; [reflexivity|].
  destruct H as [H|H]; [apply Z.ltb_lt in H | apply Z.leb_le in H]; lia.
Qed.

Lemma overall_positive_BERT_some (fl : Q -> Q) (predictions : list string) :
  predictions <> [] ->
  overall_positive_BERT fl predictions
  = Return (percentage fl
              (List.length
                 (filter (fun pred => String.eqb pred "positive") predictions))
              (List.length predictions)).
Proof.
  intros H. unfold overall_positive_BERT. rewrite truediv_nat.
  destruct predictions; [contradiction | reflexivity].
Qed.

(** X6.  With at least one prediction and every title keyed by an integer
    from 1 to the number of predictions, the model report returns: after
    its two headings it prints for each title, in the order of the
    dictionary, the prediction at the position before its key, then the
    share of positive predictions and the rating. *)
Theorem model_report_with_keys_in_range
    (fl : Q -> Q) (titles : dict key string) (predictions : list string)
    (star_rating : option string) :
  predictions <> [] ->
  (forall it, In it titles ->
     key_in_range (List.length predictions) (fst it) = true) ->
  display_BERT_results fl titles predictions star_rating
  = ((bert_heading ++ map (bert_line predictions) titles
      ++ [bert_closing fl predictions star_rating])%list,
     Return tt).
Proof.
  intros Hne Hkeys. unfold display_BERT_results.
  rewrite (overall_positive_BERT_some fl predictions Hne).
  rewrite (io_for_print_in _ (bert_line predictions)).
  - reflexivity.
  - intros it Hit. apply bert_turn_in_range. apply Hkeys. exact Hit.
Qed.

Lemma model_report_with_keys_in_range_witness :
  (["positive"; "negative"] <> []
   /\ forall it, In it [(KInt 2, "OK"); (KInt 1, "Great")] ->
        key_in_range (List.length ["positive"; "negative"]) (fst it) = true)
  /\ display_BERT_results exact [(KInt 2, "OK"); (KInt 1, "Great")]
       ["positive"; "negative"] None
     = ((bert_heading
         ++ map (bert_line ["positive"; "negative"])
              [(KInt 2, "OK"); (KInt 1, "Great")]
         ++ [bert_closing exact ["positive"; "negative"] None])%list,
        Return tt).
Proof.
  assert (Hne : ["positive"; "negative"] <> []) by discriminate.
  assert (Hk : forall it, In it [(KInt 2, "OK"); (KInt 1, "Great")] ->
                 key_in_range (List.length ["positive"; "negative"]) (fst it) = true).
  { intros it [<-|[<-|[]]]; reflexivity. }
  split; [split; assumption|].
  apply (model_report_with_keys_in_range exact [(KInt 2, "OK"); (KInt 1, "Great")]
           ["positive"; "negative"] None Hne Hk).
Defined.

(** X7.  The model report stops at the first title whose key it cannot
    use: with the titles before it in range, a string key raises
    [TypeError] and an integer key beyond the number of predictions (or at
    most its negation) raises [IndexError], after the headings and the
    lines of the titles before; neither the share of positive predictions
    nor the rating is printed. *)
Theorem model_report_stops_at_a_bad_key
    (fl : Q -> Q) (front back : dict key string) (k : key) (title : string)
    (predictions : list string) (star_rating : option string) :
  predictions <> [] ->
  (forall it, In it front ->
     key_in_range (List.length predictions) (fst it) = true) ->
  key_out_of_range (List.length predictions) k = true ->
  display_BERT_results fl (front ++ (k, title) :: back)%list predictions star_rating
  = ((bert_heading ++ map (bert_line predictions) front)%list,
     Raise (key_error k)).
Proof.
  intros Hne Hfront Hk. unfold display_BERT_results.
  rewrite (overall_positive_BERT_some fl predictions Hne).
  match goal with |- context [io_for _ ?b] => set (body := b) end.
  assert (Hbad : body (k, title) = ([], Raise (key_error k)))
    by (apply (bert_turn_out_of_range predictions (k, title) Hk)).
  assert (Hgood : io_for front body = (map (bert_line predictions) front, Return tt)).
  { apply io_for_print_in. intros it Hit.
    apply bert_turn_in_range. apply Hfront. exact Hit. }
  rewrite io_for_app, Hgood.
  change (io_for ((k, title) :: back) body)
    with (io_bind (body (k, title)) (fun _ => io_for back body)).
  rewrite Hbad.
  unfold bert_heading, lift, io_bind, print. simpl.
  rewrite app_nil_r. reflexivity.
Qed.

Lemma model_report_stops_at_a_bad_key_witness :
  (["positive"; "negative"] <> []
   /\ (forall it, In it [(KInt 1, "Great")] ->
         key_in_range (List.length ["positive"; "negative"]) (fst it) = true)
   /\ key_out_of_range (List.length ["positive"; "negative"]) (KInt 11) = true)
  /\ display_BERT_results exact
       ([(KInt 1, "Great")] ++ (KInt 11, "Bad") :: [])%list
       ["positive"; "negative"] (Some "4.5 out of 5")
     = ((bert_heading
         ++ map (bert_line ["positive"; "negative"]) [(KInt 1, "Great")])%list,
        Raise (key_error (KInt 11))).
Proof.
  assert (Hne : ["positive"; "negative"] <> []) by discriminate.
  assert (Hk : forall it, In it [(KInt 1, "Great")] ->
                 key_in_range (List.length ["positive"; "negative"]) (fst it) = true).
  { intros it [<-|[]]; reflexivity. }
  split; [repeat split; try assumption; reflexivity|].
  apply (model_report_stops_at_a_bad_key exact [(KInt 1, "Great")] []
           (KInt 11) "Bad" ["positive"; "negative"] (Some "4.5 out of 5")
           Hne Hk eq_refl).
Defined.

(* ================================================================== *)
(** * Further properties of the scraper *)
(* ================================================================== *)

Lemma split_cases (c : ascii) (s : string) :
  (contains c s = false /\ split c s = [s])
  \/ (exists a r, s = a ++ String c r /\ contains c a = false
                  /\ split c s = a :: split c r).
Proof.
  induction s as [|c' s IH]; simpl.
  - left. split; reflexivity.
  - destruct (Ascii.eqb c' c) eqn:E; simpl.
    + apply Ascii.eqb_eq in E. subst c'. right.
      exists "", s. repeat split.
    + destruct IH as [[Hc Hs]|[a [r [Hs [Hc Hsp]]]]].
      * left. rewrite Hs. split; [exact Hc | reflexivity].
      * right. exists (String c' a), r. rewrite Hsp. simpl. rewrite E, Hc, Hs.
        repeat split.
Qed.

Lemma append_empty_r (s : string) : s ++ "" = s.
Proof. induction s as [|c s IH]; simpl; [reflexivity | rewrite IH; reflexivity]. Qed.

Lemma contains_app (c : ascii) (a b : string) :
  contains c (a ++ b) = contains c a || contains c b.
Proof.
  induction a as [|x a IH]; simpl; [reflexivity|].
  rewrite IH, orb_assoc. reflexivity.
Qed.

(** X8.  The title of a review is the second line of the stripped text of
    its element: the part between the first line break and the next one
    (or the end); when the stripped text has no line break at all, taking
    it raises [IndexError], and nothing else is ever raised. *)
Theorem title_is_the_second_line (text : string) :
  match title_text text with
  | Return title =>
      contains newline title = false
      /\ exists first rest,
           contains newline first = false
           /\ strip text = first ++ nl ++ title ++ rest
           /\ (rest = "" \/ exists more, rest = nl ++ more)
  | Raise e => e = IndexError /\ contains newline (strip text) = false
  end.
Proof.
  unfold title_text, index.
  destruct (split_cases newline (strip text)) as [[Hc Hs]|[a [r [Hs [Hc Hsp]]]]].
  - fold newline. rewrite Hs. simpl. split; [reflexivity | exact Hc].
  - fold newline. rewrite Hsp. simpl.
    destruct (split_cases newline r) as [[Hc' Hs']|[b [r' [Hs' [Hc' Hsp']]]]].
    + rewrite Hs'. split; [exact Hc'|].
      exists a, "". split; [exact Hc|]. split; [|left; reflexivity].
      rewrite Hs, append_empty_r. reflexivity.
    + rewrite Hsp'. split; [exact Hc'|].
      exists a, (String newline r'). split; [exact Hc|].
      split; [|right; exists r'; reflexivity].
      rewrite Hs, Hs'. reflexivity.
Qed.

Lemma title_text_raises_IndexError (text : string) (e : exn) :
  title_text text = Raise e -> e = IndexError.
Proof.
  intros H.
  unfold title_text, index in H.
  destruct (nth_error (split (ascii_of_nat 10) (strip text)) 1); [discriminate|].
  inversion H. reflexivity.
Qed.

Lemma title_text_one_line (text : string) :
  contains newline (strip text) = false -> title_text text = Raise IndexError.
Proof.
  intros H. unfold title_text, index.
  destruct (split_cases newline (strip text)) as [[_ Hs]|[a [r [Hs [Hc _]]]]].
  - fold newline. rewrite Hs. reflexivity.
  - rewrite Hs, contains_app in H.
    change (contains newline (String newline r))
      with (Ascii.eqb newline newline || contains newline r) in H.
    rewrite Ascii.eqb_refl in H. simpl in H. rewrite orb_true_r in H. discriminate.
Qed.

Lemma mapM_titles_raise (items : list (Z * string)) (i : Z) (text : string) :
  In (i, text) items ->
  title_text text = Raise IndexError ->
  mapM (fun it => Py.bind (title_text (snd it)) (fun t => Return (fst it + 1, t)))
       items = Raise IndexError.
Proof.
  induction items as [|[j x] items IH]; intros Hin Ht; [contradiction|].
  simpl. destruct (title_text x) as [t|e] eqn:E; simpl.
  - destruct Hin as [Hin|Hin]; [inversion Hin; subst; congruence|].
    rewrite (IH Hin Ht). reflexivity.
  - apply title_text_raises_IndexError in E. subst e. reflexivity.
Qed.

Lemma In_enumerate {A} (l : list A) (a : A) : forall start,
  In a l -> exists i, In (i, a) (enumerate start l).
Proof.
  induction l as [|x l IH]; intros start H; [contradiction|].
  destruct H as [->|H].
  - exists start. left. reflexivity.
  - destruct (IH (start + 1) H) as [i Hi]. exists i. right. exact Hi.
Qed.

(** X9.  One review title without a line break loses the whole page: when
    a page comes back with status 200 and the stripped text of one of its
    title elements has no line break, [scrape_page] raises [IndexError],
    and merging the page changes nothing, neither titles nor reviews nor,
    for page 1, the rating. *)
Theorem one_line_title_loses_the_page
    (product product_id : string) (requests_get : string -> result response)
    (page_num : Z) (resp : response) (text : string) :
  requests_get (current_url product product_id page_num) = Return resp ->
  status_code resp = 200 ->
  In text (review_title (content resp)) ->
  contains newline (strip text) = false ->
  scrape_page product product_id requests_get page_num = Raise IndexError
  /\ forall acc,
       merge_future acc (scrape_page product product_id requests_get page_num) = acc.
Proof.
  intros Hget Hstatus Hin Hline.
  assert (E : scrape_page product product_id requests_get page_num = Raise IndexError).
  { unfold scrape_page, get_soup. rewrite Hget. simpl.
    apply Z.eqb_eq in Hstatus. rewrite Hstatus. simpl.
    unfold review_titles_of.
    destruct (In_enumerate (review_title (content resp)) text 0 Hin) as [i Hi].
    rewrite (mapM_titles_raise _ i text Hi (title_text_one_line text Hline)).
    reflexivity. }
  split; [exact E|]. intros acc. rewrite E. reflexivity.
Qed.

Lemma one_line_title_loses_the_page_witness :
  (serve (ok {| rating_out_of_text := Some "4.5 out of 5";
                review_title := [title_element "5.0 out of 5 stars" "Great"; "OK"];
                review_body := ["love it"; "it is fine"] |})
         (ok page_two) (current_url "Widget" "B0CHWRXH8B" 1)
   = ok {| rating_out_of_text := Some "4.5 out of 5";
           review_title := [title_element "5.0 out of 5 stars" "Great"; "OK"];
           review_body := ["love it"; "it is fine"] |}
   /\ In "OK" [title_element "5.0 out of 5 stars" "Great"; "OK"]
   /\ contains newline (strip "OK") = false)
  /\ scrape_page "Widget" "B0CHWRXH8B"
       (serve (ok {| rating_out_of_text := Some "4.5 out of 5";
                     review_title := [title_element "5.0 out of 5 stars" "Great"; "OK"];
                     review_body := ["love it"; "it is fine"] |})
              (ok page_two)) 1
     = Raise IndexError.
Proof.
  split; [repeat split; try reflexivity; right; left; reflexivity|].
  apply (proj1 (one_line_title_loses_the_page "Widget" "B0CHWRXH8B"
                  (serve (ok {| rating_out_of_text := Some "4.5 out of 5";
                                review_title := [title_element "5.0 out of 5 stars" "Great"; "OK"];
                                review_body := ["love it"; "it is fine"] |})
                         (ok page_two))
                  1
                  {| status_code := 200;
                     content := {| rating_out_of_text := Some "4.5 out of 5";
                                   review_title := [title_element "5.0 out of 5 stars" "Great"; "OK"];
                                   review_body := ["love it"; "it is fine"] |} |}
                  "OK" eq_refl eq_refl
                  (or_intror (or_introl eq_refl)) eq_refl)).
Defined.

Section OrderFacts.
Variables product product_id : string.
Variable requests_get : string -> result response.

Local Notation scrape_page :=
  (ReviewScraper.scrape_page product product_id requests_get).
Local Notation run := (merged product product_id requests_get).

Lemma merged_fetched (order : list Z) : forall acc,
  run (fetched_pages product product_id requests_get order) acc = run order acc.
Proof.
  induction order as [|p order IH]; intros acc; [reflexivity|].
  unfold fetched_pages in *. simpl filter.
  destruct (page_failed (scrape_page p)) eqn:E; simpl negb; cbv iota.
  - rewrite merged_cons, merge_failed by exact E. apply IH.
  - rewrite !merged_cons. apply IH.
Qed.

Lemma merge_star (acc : corpus) (p : Z) :
  product_star_rating (merge_future acc (scrape_page p))
  = if p =? 1 then
      match page_one_rating product product_id requests_get with
      | Some s => Some s
      | None => product_star_rating acc
      end
    else product_star_rating acc.
Proof.
  destruct (p =? 1) eqn:Hp.
  - apply Z.eqb_eq in Hp. subst p. unfold page_one_rating.
    destruct (scrape_page 1) as [[[[q pt] pr] star]|e] eqn:E; [|reflexivity].
    pose proof E as Hq. apply scrape_page_num in Hq. subst q.
    destruct star as [[|c s]|]; simpl;
      destruct pt as [[|? ?]|], pr as [[|? ?]|]; reflexivity.
  - apply Z.eqb_neq in Hp. apply merge_star_other. exact Hp.
Qed.

Lemma merged_star (order : list Z) : forall acc,
  product_star_rating (run order acc)
  = if existsb (Z.eqb 1) order then
      match page_one_rating product product_id requests_get with
      | Some s => Some s
      | None => product_star_rating acc
      end
    else product_star_rating acc.
Proof.
  induction order as [|p order IH]; intros acc; [reflexivity|].
  rewrite merged_cons, IH, merge_star.
  change (existsb (Z.eqb 1) (p :: order))
    with ((1 =? p) || existsb (Z.eqb 1) order).
  rewrite (Z.eqb_sym 1 p).
  destruct (p =? 1); simpl;
    destruct (existsb (Z.eqb 1) order);
    destruct (page_one_rating product product_id requests_get); reflexivity.
Qed.

Lemma page_one_completed (as_completed : list Z -> list Z) (total_pages : Z) :
  completion_order as_completed ->
  existsb (Z.eqb 1) (as_completed (range 1 (total_pages + 1))) = (1 <=? total_pages).
Proof.
  intros H. destruct (1 <=? total_pages) eqn:E.
  - apply Z.leb_le in E. apply existsb_exists. exists 1.
    split; [|reflexivity]. apply completed_pages; [exact H | lia].
  - apply Z.leb_gt in E.
    destruct (existsb (Z.eqb 1) (as_completed (range 1 (total_pages + 1)))) eqn:Ex;
      [|reflexivity].
    apply existsb_exists in Ex. destruct Ex as [x [Hx Heq]].
    apply (completed_pages as_completed total_pages x H) in Hx. lia.
Qed.
End OrderFacts.

(** X10.  A page whose fetch failed leaves no trace: the corpus is the one
    obtained from the pages that did not fail, taken in the same order of
    completion. *)
Theorem failed_pages_leave_no_trace
    (product product_id : string) (requests_get : string -> result response)
    (as_completed : list Z -> list Z) (total_pages : Z) :
  scrape_reviews_concurrently product product_id requests_get
    as_completed total_pages
  = Return (merged product product_id requests_get
              (fetched_pages product product_id requests_get
                 (as_completed (range 1 (total_pages + 1))))
              empty_corpus).
Proof. rewrite scrape_is_merged, merged_fetched. reflexivity. Qed.

(** X11.  The reviews of the corpus are the bodies of the pages that came
    back with titles and bodies, page after page in the order of
    completion; the rating is the one of page 1 when at least one page is
    asked for, and none otherwise. *)
Theorem corpus_reviews_and_rating
    (product product_id : string) (requests_get : string -> result response)
    (as_completed : list Z -> list Z) (total_pages : Z) :
  completion_order as_completed ->
  exists c,
    scrape_reviews_concurrently product product_id requests_get
      as_completed total_pages = Return c
    /\ reviews c
       = List.concat (map (page_bodies product product_id requests_get)
                          (as_completed (range 1 (total_pages + 1))))
    /\ product_star_rating c
       = if 1 <=? total_pages
         then page_one_rating product product_id requests_get
         else None.
Proof.
  intros H. eexists. split; [apply scrape_is_merged|]. split.
  - rewrite reviews_in_completion_order. reflexivity.
  - rewrite merged_star, (page_one_completed as_completed total_pages H). simpl.
    destruct (1 <=? total_pages); [|reflexivity].
    destruct (page_one_rating product product_id requests_get); reflexivity.
Qed.

Lemma corpus_reviews_and_rating_witness :
  completion_order last_first
  /\ exists c,
       scrape_reviews_concurrently "Widget" "B0CHWRXH8B" both_pages last_first 2
       = Return c
       /\ reviews c
          = List.concat (map (page_bodies "Widget" "B0CHWRXH8B" both_pages)
                             (last_first (range 1 (2 + 1))))
       /\ product_star_rating c
          = if 1 <=? 2 then page_one_rating "Widget" "B0CHWRXH8B" both_pages
            else None.
Proof.
  split; [apply last_first_is_completion_order|].
  apply (corpus_reviews_and_rating "Widget" "B0CHWRXH8B" both_pages last_first 2
           last_first_is_completion_order).
Defined.

(** X12.  The order of completion changes the order of the reviews and
    nothing else of them, and it does not change the rating: two runs on
    the same fetch outcomes return reviews that are rearrangements of one
    another and the same rating. *)
Theorem completion_order_only_rearranges
    (product product_id : string) (requests_get : string -> result response)
    (first_order second_order : list Z -> list Z) (total_pages : Z) :
  completion_order first_order ->
  completion_order second_order ->
  exists c1 c2,
    scrape_reviews_concurrently product product_id requests_get
      first_order total_pages = Return c1
    /\ scrape_reviews_concurrently product product_id requests_get
         second_order total_pages = Return c2
    /\ Permutation (reviews c1) (reviews c2)
    /\ product_star_rating c1 = product_star_rating c2.
Proof.
  intros H1 H2.
  eexists. eexists. split; [apply scrape_is_merged|].
  split; [apply scrape_is_merged|]. split.
  - rewrite !reviews_in_completion_order. simpl.
    rewrite <- !flat_map_concat_map. apply Permutation_flat_map.
    eapply Permutation_trans; [apply Permutation_sym; apply H1 | apply H2].
  - rewrite !merged_star.
    rewrite (page_one_completed first_order total_pages H1).
    rewrite (page_one_completed second_order total_pages H2). reflexivity.
Qed.

Lemma completion_order_only_rearranges_witness :
  (completion_order in_order /\ completion_order last_first)
  /\ exists c1 c2,
       scrape_reviews_concurrently "Widget" "B0CHWRXH8B" both_pages in_order 2
       = Return c1
       /\ scrape_reviews_concurrently "Widget" "B0CHWRXH8B" both_pages last_first 2
          = Return c2
       /\ Permutation (reviews c1) (reviews c2)
       /\ product_star_rating c1 = product_star_rating c2.
Proof.
  split; [split; [apply in_order_is_completion_order
                 | apply last_first_is_completion_order]|].
  apply (completion_order_only_rearranges "Widget" "B0CHWRXH8B" both_pages
           in_order last_first 2
           in_order_is_completion_order last_first_is_completion_order).
Defined.

(** X13.  When page 1 comes back with status 200, titles that can be taken
    apart and a rating element, the rating of the corpus is the stripped
    text of that element, and there is no rating when the stripped text is
    empty. *)
Theorem rating_is_the_stripped_text
    (product product_id : string) (requests_get : string -> result response)
    (as_completed : list Z -> list Z) (total_pages : Z)
    (resp : response) (text : string) :
  completion_order as_completed ->
  1 <= total_pages ->
  requests_get (current_url product product_id 1) = Return resp ->
  status_code resp = 200 ->
  rating_out_of_text (content resp) = Some text ->
  raised (review_titles_of (content resp)) = false ->
  exists c,
    scrape_reviews_concurrently product product_id requests_get
      as_completed total_pages = Return c
    /\ product_star_rating c
       = if String.eqb (strip text) "" then None else Some (strip text).
Proof.
  intros Hperm Htotal Hget Hstatus Hrating Htitles.
  eexists. split; [apply scrape_is_merged|].
  rewrite merged_star, (page_one_completed as_completed total_pages Hperm).
  replace (1 <=? total_pages) with true by (symmetry; apply Z.leb_le; exact Htotal).
  unfold page_one_rating, scrape_page, get_soup. rewrite Hget. simpl.
  apply Z.eqb_eq in Hstatus. rewrite Hstatus. simpl. rewrite Hrating.
  destruct (review_titles_of (content resp)) as [pt|e]; [|discriminate].
  simpl. destruct (strip text =? "")%string; reflexivity.
Qed.

Lemma rating_is_the_stripped_text_witness :
  (completion_order in_order
   /\ 1 <= 1
   /\ serve (ok {| rating_out_of_text := Some "  ";
                   review_title := review_title page_one;
                   review_body := review_body page_one |})
            (ok page_two) (current_url "Widget" "B0CHWRXH8B" 1)
      = ok {| rating_out_of_text := Some "  ";
              review_title := review_title page_one;
              review_body := review_body page_one |}
   /\ raised (review_titles_of page_one) = false)
  /\ exists c,
       scrape_reviews_concurrently "Widget" "B0CHWRXH8B"
         (serve (ok {| rating_out_of_text := Some "  ";
                       review_title := review_title page_one;
                       review_body := review_body page_one |})
                (ok page_two)) in_order 1 = Return c
       /\ product_star_rating c
          = if String.eqb (strip "  ") "" then None else Some (strip "  ").
Proof.
  split; [repeat split; try reflexivity; try lia;
          apply in_order_is_completion_order|].
  apply (rating_is_the_stripped_text "Widget" "B0CHWRXH8B"
           (serve (ok {| rating_out_of_text := Some "  ";
                         review_title := review_title page_one;
                         review_body := review_body page_one |})
                  (ok page_two)) in_order 1
           {| status_code := 200;
              content := {| rating_out_of_text := Some "  ";
                            review_title := review_title page_one;
                            review_body := review_body page_one |} |}
           "  " in_order_is_completion_order ltac:(lia)
           eq_refl eq_refl eq_refl eq_refl).
Defined.

Section LookupFacts.
Variables product product_id : string.
Variable requests_get : string -> result response.

Local Notation scrape_page :=
  (ReviewScraper.scrape_page product product_id requests_get).
Local Notation run := (merged product product_id requests_get).
Local Notation title_at := (page_title_at product product_id requests_get).

Lemma merge_lookup (acc : corpus) (p : Z) (k : key) :
  dict_get key_eqb k (titles (merge_future acc (scrape_page p)))
  = match title_at p k with
    | Some t => Some t
    | None => dict_get key_eqb k (titles acc)
    end.
Proof.
  unfold page_title_at.
  destruct (scrape_page p) as [[[[q pt] pr] star]|e] eqn:E; [|reflexivity].
  pose proof E as Hq. apply scrape_page_num in Hq. subst q.
  destruct pt as [pt|]; [|simpl; destruct (truthy_str star && (p =? 1)); reflexivity].
  destruct pr as [pr|];
    [|destruct pt; simpl; destruct (truthy_str star && (p =? 1)); reflexivity].
  destruct pt as [|x pt'] eqn:Ept;
    [simpl; destruct (truthy_str star && (p =? 1)); reflexivity|].
  destruct pr as [|y pr'] eqn:Epr;
    [simpl; destruct (truthy_str star && (p =? 1)); reflexivity|].
  rewrite <- Ept, <- Epr in *.
  assert (Hpt : pt <> []) by (rewrite Ept; discriminate).
  assert (Hpr : pr <> []) by (rewrite Epr; discriminate).
  rewrite <- E.
  rewrite (merge_titles_page product product_id requests_get acc p pt pr star E Hpt Hpr).
  pose proof E as Hinv. apply scrape_page_inv in Hinv.
  destruct Hinv as [resp [_ [_ [_ [Ht _]]]]].
  apply review_titles_of_keys in Ht. destruct Ht as [Hnd _].
  rewrite (global_titles_distinct p pt Hnd).
  apply (dict_get_update key_eqb key_eqb_eq).
  rewrite shift_keys. apply Finite.Injective_map_NoDup; [|exact Hnd].
  intros a b Hab. inversion Hab. lia.
Qed.

Lemma merged_lookup (k : key) (order : list Z) : forall acc,
  dict_get key_eqb k (titles (run order acc))
  = fold_left (fun r p => match title_at p k with Some t => Some t | None => r end)
              order (dict_get key_eqb k (titles acc)).
Proof.
  induction order as [|p order IH]; intros acc; [reflexivity|].
  rewrite merged_cons, IH, merge_lookup. reflexivity.
Qed.

Lemma single_writer (k : key) (p0 : Z) (order : list Z) : forall init,
  (forall p, In p order -> title_at p k <> None -> p = p0) ->
  fold_left (fun r p => match title_at p k with Some t => Some t | None => r end)
            order init
  = if existsb (Z.eqb p0) order then
      match title_at p0 k with Some t => Some t | None => init end
    else init.
Proof.
  induction order as [|p order IH]; intros init H; [reflexivity|].
  simpl fold_left.
  change (existsb (Z.eqb p0) (p :: order))
    with ((p0 =? p) || existsb (Z.eqb p0) order).
  rewrite IH by (intros q Hq; apply H; right; exact Hq).
  destruct (Z.eq_dec p p0) as [->|Hp].
  - rewrite Z.eqb_refl. simpl.
    destruct (existsb (Z.eqb p0) order); destruct (title_at p0 k); reflexivity.
  - assert (Hnone : title_at p k = None).
    { destruct (title_at p k) eqn:E; [|reflexivity].
      exfalso. apply Hp. apply H; [left; reflexivity | congruence]. }
    rewrite Hnone.
    replace (p0 =? p) with false by (symmetry; apply Z.eqb_neq; congruence).
    reflexivity.
Qed.

(** What a page of at most ten titles writes lies in its own block. *)
Lemma title_at_block (p : Z) (k : key) (t : string) :
  (forall pt pr star, scrape_page p = Return (p, Some pt, pr, star) ->
                      (List.length pt <= 10)%nat) ->
  title_at p k = Some t ->
  exists z, k = KInt z /\ (p - 1) * 10 < z <= p * 10 /\ owner k = p.
Proof.
  intros Hten H. unfold page_title_at in H.
  destruct (scrape_page p) as [[[[q pt] pr] star]|e] eqn:E; [|discriminate].
  pose proof E as Hq. apply scrape_page_num in Hq. subst q.
  destruct pt as [[|x pt']|]; try discriminate.
  destruct pr as [[|y pr']|]; try discriminate.
  specialize (Hten _ _ _ eq_refl).
  pose proof E as Hinv. apply scrape_page_inv in Hinv.
  destruct Hinv as [resp [_ [_ [_ [Ht _]]]]].
  apply review_titles_of_keys in Ht. destruct Ht as [Hnd [_ Hkeys]].
  rewrite (global_titles_distinct p _ Hnd) in H.
  apply (dict_get_in key_eqb key_eqb_eq) in H.
  rewrite shift_keys in H. apply in_map_iff in H.
  destruct H as [i [<- Hi]]. apply Hkeys in Hi.
  exists (i + (p - 1) * 10). split; [reflexivity|]. split; [lia|].
  unfold owner.
  replace (i + (p - 1) * 10 - 1) with ((i - 1) + (p - 1) * 10) by lia.
  rewrite Z.div_add by lia. rewrite Z.div_small by lia. lia.
Qed.
End LookupFacts.

(** X14.  When no page carries more than ten titles, the titles of the
    corpus, looked up by key, do not depend on the order of completion: a
    key holds what the page owning its block of ten wrote there, and
    nothing when that page was not asked for or wrote nothing there; so
    every key is an integer from 1 to ten times the number of pages. *)
Theorem titles_do_not_depend_on_completion
    (product product_id : string) (requests_get : string -> result response)
    (as_completed : list Z -> list Z) (total_pages : Z) :
  completion_order as_completed ->
  ten_titles_a_page product product_id requests_get (range 1 (total_pages + 1)) ->
  exists c,
    scrape_reviews_concurrently product product_id requests_get
      as_completed total_pages = Return c
    /\ (forall k,
          dict_get key_eqb k (titles c)
          = if (1 <=? owner k) && (owner k <=? total_pages)
            then page_title_at product product_id requests_get (owner k) k
            else None)
    /\ (forall k t,
          dict_get key_eqb k (titles c) = Some t ->
          exists z, k = KInt z /\ 1 <= z <= total_pages * 10).
Proof.
  intros Hperm Hten.
  assert (Hsize : forall p, 1 <= p <= total_pages ->
            forall pt pr star,
              scrape_page product product_id requests_get p
              = Return (p, Some pt, pr, star) -> (List.length pt <= 10)%nat).
  { intros p Hp pt pr star E. apply (Hten p pt pr star); [|exact E].
    apply In_range. lia. }
  assert (Hlookup : forall k,
            dict_get key_eqb k
              (titles (merged product product_id requests_get
                         (as_completed (range 1 (total_pages + 1))) empty_corpus))
            = if (1 <=? owner k) && (owner k <=? total_pages)
              then page_title_at product product_id requests_get (owner k) k
              else None).
  { intros k. rewrite merged_lookup.
    rewrite (single_writer product product_id requests_get k (owner k)).
    - simpl dict_get.
      destruct ((1 <=? owner k) && (owner k <=? total_pages)) eqn:Ein.
      + apply andb_true_iff in Ein. destruct Ein as [H1 H2].
        apply Z.leb_le in H1. apply Z.leb_le in H2.
        replace (existsb (Z.eqb (owner k)) (as_completed (range 1 (total_pages + 1))))
          with true.
        * destruct (page_title_at product product_id requests_get (owner k) k);
            reflexivity.
        * symmetry. apply existsb_exists. exists (owner k).
          split; [|apply Z.eqb_refl].
          apply completed_pages; [exact Hperm | lia].
      + destruct (existsb (Z.eqb (owner k))
                    (as_completed (range 1 (total_pages + 1)))) eqn:Ex;
          [|reflexivity].
        apply existsb_exists in Ex. destruct Ex as [x [Hx Heq]].
        apply Z.eqb_eq in Heq. subst x.
        apply (completed_pages as_completed total_pages (owner k) Hperm) in Hx.
        apply andb_false_iff in Ein.
        destruct Ein as [Ein|Ein]; [apply Z.leb_gt in Ein | apply Z.leb_gt in Ein]; lia.
    - intros p Hp Hw.
      apply (completed_pages as_completed total_pages p Hperm) in Hp.
      destruct (page_title_at product product_id requests_get p k) as [t|] eqn:E;
        [|contradiction].
      destruct (title_at_block product product_id requests_get p k t
                  (Hsize p Hp) E) as [z [_ [_ Ho]]].
      symmetry. exact Ho. }
  eexists. split; [apply scrape_is_merged|]. split; [exact Hlookup|].
  intros k t Hk. rewrite Hlookup in Hk.
  destruct ((1 <=? owner k) && (owner k <=? total_pages)) eqn:Ein; [|discriminate].
  apply andb_true_iff in Ein. destruct Ein as [H1 H2].
  apply Z.leb_le in H1. apply Z.leb_le in H2.
  destruct (title_at_block product product_id requests_get (owner k) k t
              (Hsize (owner k) (conj H1 H2)) Hk) as [z [Hz [Hb _]]].
  exists z. split; [exact Hz|]. lia.
Qed.

Lemma titles_do_not_depend_on_completion_witness :
  (completion_order last_first
   /\ ten_titles_a_page "Widget" "B0CHWRXH8B" both_pages (range 1 (2 + 1)))
  /\ exists c,
       scrape_reviews_concurrently "Widget" "B0CHWRXH8B" both_pages last_first 2
       = Return c
       /\ (forall k,
             dict_get key_eqb k (titles c)
             = if (1 <=? owner k) && (owner k <=? 2)
               then page_title_at "Widget" "B0CHWRXH8B" both_pages (owner k) k
               else None)
       /\ (forall k t,
             dict_get key_eqb k (titles c) = Some t ->
             exists z, k = KInt z /\ 1 <= z <= 2 * 10).
Proof.
  assert (Hsize : ten_titles_a_page "Widget" "B0CHWRXH8B" both_pages (range 1 (2 + 1))).
  { intros m pt pr star Hm Hp.
    assert (Hc : m = 1 \/ m = 2) by (vm_compute in Hm; intuition).
    destruct Hc as [-> | ->]; vm_compute in Hp; inversion Hp; simpl; lia. }
  split; [split; [apply last_first_is_completion_order | exact Hsize]|].
  apply (titles_do_not_depend_on_completion "Widget" "B0CHWRXH8B" both_pages
           last_first 2 last_first_is_completion_order Hsize).
Defined.

(* ================================================================== *)
(** * Further properties of the snapshot and of [main] *)
(* ================================================================== *)

Lemma str_of_int_injective (a b : Z) : str_of_int a = str_of_int b -> a = b.
Proof.
  unfold str_of_int. intros H.
  assert (Hnn : forall z, Z.to_int z <> Decimal.Pos Decimal.Nil
                          /\ Z.to_int z <> Decimal.Neg Decimal.Nil).
  { intros [|p|p]; simpl; split; try discriminate;
      intros E; inversion E as [E'];
      apply (DecimalPos.Unsigned.to_uint_nonnil p E'). }
  apply DecimalZ.to_int_inj.
  assert (Hs : Some (Z.to_int a) = Some (Z.to_int b)).
  { rewrite <- (NilZero.isi (Z.to_int a)) by apply Hnn.
    rewrite <- (NilZero.isi (Z.to_int b)) by apply Hnn.
    rewrite H. reflexivity. }
  inversion Hs. reflexivity.
Qed.

Section DictKeys.
Context {K V : Type}.
Variable eqb : K -> K -> bool.
Hypothesis eqb_eq : forall a b, eqb a b = true <-> a = b.

Lemma dict_set_keys (k : K) (v : V) (d : dict K V) :
  dict_keys (dict_set eqb k v d) = dict_keys d
  \/ (~ In k (dict_keys d)
      /\ dict_keys (dict_set eqb k v d) = (dict_keys d ++ [k])%list).
Proof.
  induction d as [|[k' v'] d IH]; simpl.
  - right. split; [intros []|reflexivity].
  - destruct (eqb k k') eqn:E; simpl.
    + left. reflexivity.
    + destruct IH as [IH|[Hn IH]].
      * left. unfold dict_keys in *. rewrite IH. reflexivity.
      * right. split.
        -- intros [Hk|Hk]; [|exact (Hn Hk)].
           subst k'. rewrite (proj2 (eqb_eq k k) eq_refl) in E. discriminate.
        -- unfold dict_keys in *. rewrite IH. reflexivity.
Qed.

Lemma dict_set_NoDup (k : K) (v : V) (d : dict K V) :
  NoDup (dict_keys d) -> NoDup (dict_keys (dict_set eqb k v d)).
Proof.
  intros H. destruct (dict_set_keys k v d) as [E|[Hn E]]; rewrite E; [exact H|].
  apply NoDup_app; [exact H | constructor; [intros [] | constructor] |].
  intros x Hx [Hk|[]]. subst x. exact (Hn Hx).
Qed.

Lemma dict_set_Forall (P : K -> Prop) (k : K) (v : V) (d : dict K V) :
  P k -> Forall P (dict_keys d) -> Forall P (dict_keys (dict_set eqb k v d)).
Proof.
  intros Hk H. destruct (dict_set_keys k v d) as [E|[_ E]]; rewrite E; [exact H|].
  apply Forall_app. split; [exact H | constructor; [exact Hk | constructor]].
Qed.

Lemma dict_update_NoDup (other : list (K * V)) : forall d : dict K V,
  NoDup (dict_keys d) -> NoDup (dict_keys (dict_update eqb d other)).
Proof.
  unfold dict_update.
  induction other as [|[k v] other IH]; intros d H; simpl; [exact H|].
  apply IH. apply dict_set_NoDup. exact H.
Qed.

Lemma dict_update_Forall (P : K -> Prop) (other : list (K * V)) :
  forall d : dict K V,
  Forall P (dict_keys other) -> Forall P (dict_keys d) ->
  Forall P (dict_keys (dict_update eqb d other)).
Proof.
  unfold dict_update.
  induction other as [|[k v] other IH]; intros d Ho H; simpl; [exact H|].
  unfold dict_keys in Ho. simpl in Ho. inversion Ho; subst.
  apply IH; [assumption|]. apply dict_set_Forall; assumption.
Qed.
End DictKeys.

(** A key of the scraper: an integer. *)
Lemma merged_keys (product product_id : string)
    (requests_get : string -> result response) (order : list Z) :
  forall acc,
  NoDup (dict_keys (titles acc)) ->
  Forall (fun k => exists z, k = KInt z) (dict_keys (titles acc)) ->
  NoDup (dict_keys (titles (merged product product_id requests_get order acc)))
  /\ Forall (fun k => exists z, k = KInt z)
       (dict_keys (titles (merged product product_id requests_get order acc))).
Proof.
  induction order as [|p order IH]; intros acc Hnd Hint; [split; assumption|].
  rewrite merged_cons. apply IH.
  - destruct (scrape_page product product_id requests_get p)
      as [[[[q pt] pr] star]|e]; [|exact Hnd].
    destruct pt as [[|x pt]|], pr as [[|y pr]|]; simpl;
      destruct (truthy_str star && (q =? 1)); simpl; try exact Hnd;
      apply (dict_update_NoDup key_eqb key_eqb_eq); exact Hnd.
  - assert (Hglobal : forall q pt,
              Forall (fun k => exists z, k = KInt z)
                     (dict_keys (global_titles q pt))).
    { intros q pt. unfold global_titles, dict_of_items.
      change (Forall (fun k => exists z, k = KInt z)
                (dict_keys (dict_update key_eqb []
                   (map (fun it => (KInt (fst it + (q - 1) * 10), snd it)) pt)))).
      apply (dict_update_Forall key_eqb key_eqb_eq); [|constructor].
      unfold dict_keys. rewrite map_map. simpl.
      apply Forall_forall. intros k Hk. apply in_map_iff in Hk.
      destruct Hk as [it [<- _]]. eexists. reflexivity. }
    destruct (scrape_page product product_id requests_get p)
      as [[[[q pt] pr] star]|e]; [|exact Hint].
    destruct pt as [[|x pt]|], pr as [[|y pr]|]; simpl;
      destruct (truthy_str star && (q =? 1)); simpl; try exact Hint;
      apply (dict_update_Forall key_eqb key_eqb_eq); try exact Hint;
      apply Hglobal.
Qed.

(** What [json.load] makes of dumped titles whose keys have distinct
    texts. *)
Lemma loaded_titles (titles : dict key string) :
  NoDup (map str_of_key (dict_keys titles)) ->
  json_load (json_dump (py_titles titles)) = py_titles (string_keyed titles).
Proof.
  intros H. unfold py_titles, string_keyed. simpl. f_equal.
  rewrite !map_map. simpl.
  rewrite (dict_of_items_distinct key_eqb key_eqb_eq).
  - apply map_ext. intros [k v]. reflexivity.
  - unfold dict_keys in *. rewrite map_map. simpl.
    rewrite map_map in H.
    rewrite <- (map_map (fun it : key * string => str_of_key (fst it)) KStr).
    apply Finite.Injective_map_NoDup; [|exact H].
    intros a b Hab. inversion Hab. reflexivity.
Qed.

Lemma integer_keys_have_distinct_texts (keys : list key) :
  NoDup keys -> Forall (fun k => exists z, k = KInt z) keys ->
  NoDup (map str_of_key keys).
Proof.
  induction keys as [|k keys IH]; intros Hnd Hint; simpl; [constructor|].
  inversion Hnd as [|? ? Hnotin Hnd']; subst.
  inversion Hint as [|? ? [z Hz] Hint']; subst.
  constructor; [|apply IH; assumption].
  intros Hin. apply in_map_iff in Hin. destruct Hin as [k' [Heq Hk']].
  apply Hnotin.
  rewrite Forall_forall in Hint'. destruct (Hint' k' Hk') as [z' ->].
  simpl in Heq. apply str_of_int_injective in Heq. subst z'. exact Hk'.
Qed.

(** X16.  Titles that are keyed by strings, as they are once loaded, come
    back from the snapshot exactly as they went in, with the reviews and
    the rating. *)
Theorem string_keyed_corpus_round_trips
    (fs : filesystem) (file_path : string) (titles : dict key string)
    (reviews : list string) (star_rating : option string) :
  NoDup (dict_keys titles) ->
  Forall (fun k => exists s, k = KStr s) (dict_keys titles) ->
  load_reviews_from_file
    (save_reviews_to_file fs file_path titles reviews star_rating) file_path
  = Return (py_titles titles, py_reviews reviews, py_star_rating star_rating).
Proof.
  intros Hnd Hstr. rewrite load_after_save.
  assert (Hsame : string_keyed titles = titles).
  { unfold string_keyed. rewrite <- (map_id titles) at 2.
    apply map_ext_in. intros [k v] Hin.
    rewrite Forall_forall in Hstr.
    destruct (Hstr k) as [s ->]; [|reflexivity].
    unfold dict_keys. apply in_map_iff. exists (k, v). split; [reflexivity|exact Hin]. }
  rewrite loaded_titles; [rewrite Hsame; reflexivity|].
  assert (Hkeys : map str_of_key (dict_keys titles)
                  = map (fun k => match k with KStr s => s | KInt z => str_of_int z end)
                        (dict_keys titles)) by reflexivity.
  clear Hsame. induction (dict_keys titles) as [|k keys IH]; simpl; [constructor|].
  inversion Hnd as [|? ? Hnotin Hnd']; subst.
  inversion Hstr as [|? ? [s Hs] Hstr']; subst.
  constructor; [|apply IH; try assumption; reflexivity].
  intros Hin. apply in_map_iff in Hin. destruct Hin as [k' [Heq Hk']].
  rewrite Forall_forall in Hstr'. destruct (Hstr' k' Hk') as [s' ->].
  simpl in Heq. subst s'. exact (Hnotin Hk').
Qed.

Lemma string_keyed_corpus_round_trips_witness :
  (NoDup (dict_keys [(KStr "1", "Great"); (KStr "2", "OK")])
   /\ Forall (fun k => exists s, k = KStr s)
        (dict_keys [(KStr "1", "Great"); (KStr "2", "OK")]))
  /\ load_reviews_from_file
       (save_reviews_to_file no_files "B0CHWRXH8B_reviews.json"
          [(KStr "1", "Great"); (KStr "2", "OK")] ["love it"; "it is fine"]
          (Some "4.5 out of 5")) "B0CHWRXH8B_reviews.json"
     = Return (py_titles [(KStr "1", "Great"); (KStr "2", "OK")],
               py_reviews ["love it"; "it is fine"],
               py_star_rating (Some "4.5 out of 5")).
Proof.
  assert (Hnd : NoDup (dict_keys [(KStr "1", "Great"); (KStr "2", "OK")])).
  { simpl. constructor; [intros [H|[]]; discriminate H|].
    constructor; [intros []|constructor]. }
  assert (Hstr : Forall (fun k => exists s, k = KStr s)
                   (dict_keys [(KStr "1", "Great"); (KStr "2", "OK")])).
  { simpl. repeat constructor; eexists; reflexivity. }
  split; [split; assumption|].
  apply (string_keyed_corpus_round_trips no_files "B0CHWRXH8B_reviews.json"
           [(KStr "1", "Great"); (KStr "2", "OK")] ["love it"; "it is fine"]
           (Some "4.5 out of 5") Hnd Hstr).
Defined.

Lemma load_scraped (product product_id : string)
    (requests_get : string -> result response) (order : list Z)
    (fs : filesystem) (file_path : string) :
  let c := merged product product_id requests_get order empty_corpus in
  load_reviews_from_file
    (save_reviews_to_file fs file_path (titles c) (reviews c)
       (product_star_rating c)) file_path
  = Return (py_titles (string_keyed (titles c)), py_reviews (reviews c),
            py_star_rating (product_star_rating c)).
Proof.
  intros c. rewrite load_after_save. rewrite loaded_titles; [reflexivity|].
  destruct (merged_keys product product_id requests_get order empty_corpus)
    as [Hnd Hint]; [constructor | constructor |].
  apply integer_keys_have_distinct_texts; assumption.
Qed.

(** X15.  Saving the corpus that the scraper returns and loading it gives
    back the reviews and the rating as they were, and the titles in the
    same order with the same texts, each key replaced by its decimal
    text. *)
Theorem scraped_corpus_reloaded
    (product product_id : string) (requests_get : string -> result response)
    (as_completed : list Z -> list Z) (total_pages : Z)
    (fs : filesystem) (file_path : string) :
  exists c,
    scrape_reviews_concurrently product product_id requests_get
      as_completed total_pages = Return c
    /\ load_reviews_from_file
         (save_reviews_to_file fs file_path (titles c) (reviews c)
            (product_star_rating c)) file_path
       = Return (py_titles (string_keyed (titles c)),
                 py_reviews (reviews c),
                 py_star_rating (product_star_rating c)).
Proof.
  eexists. split; [apply scrape_is_merged|].
  apply (load_scraped product product_id requests_get
           (as_completed (range 1 (total_pages + 1))) fs file_path).
Qed.

Lemma main_without_snapshot
    (fs : filesystem) (product product_id : string)
    (requests_get : string -> result response) (as_completed : list Z -> list Z) :
  fs (snapshot_path product_id) = None ->
  let c := merged product product_id requests_get
             (as_completed (range 1 (10 + 1))) empty_corpus in
  main_load_or_scrape fs product product_id requests_get as_completed
  = (save_reviews_to_file fs (snapshot_path product_id)
       (titles c) (reviews c) (product_star_rating c),
     Return (py_titles (titles c), py_reviews (reviews c),
             py_star_rating (product_star_rating c))).
Proof.
  intros Hnone c. unfold main_load_or_scrape, load_reviews_from_file.
  fold (snapshot_path product_id). rewrite Hnone. reflexivity.
Qed.

(** X17.  Without a snapshot [main] scrapes ten pages and writes the
    snapshot; on the files it leaves, a second run asks for no page
    (whatever the network would answer) and leaves the files as they are:
    it goes on with the reviews and the rating of the first run, and with
    its titles keyed by the decimal texts of their keys. *)
Theorem second_run_uses_the_snapshot
    (fs : filesystem) (product product_id : string)
    (requests_get later_requests_get : string -> result response)
    (as_completed later_as_completed : list Z -> list Z) :
  fs (snapshot_path product_id) = None ->
  exists c,
    scrape_reviews_concurrently product product_id requests_get as_completed 10
    = Return c
    /\ let saved := save_reviews_to_file fs (snapshot_path product_id)
                      (titles c) (reviews c) (product_star_rating c) in
       main_load_or_scrape fs product product_id requests_get as_completed
       = (saved,
          Return (py_titles (titles c), py_reviews (reviews c),
                  py_star_rating (product_star_rating c)))
       /\ main_load_or_scrape saved product product_id later_requests_get
            later_as_completed
          = (saved,
             Return (py_titles (string_keyed (titles c)), py_reviews (reviews c),
                     py_star_rating (product_star_rating c))).
Proof.
  intros Hnone. eexists. split; [apply scrape_is_merged|].
  cbv zeta. split.
  - apply (main_without_snapshot fs product product_id requests_get
             as_completed Hnone).
  - unfold main_load_or_scrape. fold (snapshot_path product_id).
    rewrite (load_scraped product product_id requests_get
               (as_completed (range 1 (10 + 1))) fs (snapshot_path product_id)).
    reflexivity.
Qed.

Lemma second_run_uses_the_snapshot_witness :
  no_files (snapshot_path "B0CHWRXH8B") = None
  /\ exists c,
       scrape_reviews_concurrently "Widget" "B0CHWRXH8B" both_pages last_first 10
       = Return c
       /\ let saved := save_reviews_to_file no_files (snapshot_path "B0CHWRXH8B")
                         (titles c) (reviews c) (product_star_rating c) in
          main_load_or_scrape no_files "Widget" "B0CHWRXH8B" both_pages last_first
          = (saved,
             Return (py_titles (titles c), py_reviews (reviews c),
                     py_star_rating (product_star_rating c)))
          /\ main_load_or_scrape saved "Widget" "B0CHWRXH8B" page_one_down in_order
             = (saved,
                Return (py_titles (string_keyed (titles c)), py_reviews (reviews c),
                        py_star_rating (product_star_rating c))).
Proof.
  split; [reflexivity|].
  apply (second_run_uses_the_snapshot no_files "Widget" "B0CHWRXH8B"
           both_pages page_one_down last_first in_order eq_refl).
Defined.

(** X18.  A scrape in which every page fails is kept: [main] writes the
    empty corpus to the snapshot, and every later run loads it, empty
    titles and no reviews, without asking for a page again, even when the
    pages could then be fetched. *)
Theorem failed_scrape_is_kept
    (fs : filesystem) (product product_id : string)
    (requests_get later_requests_get : string -> result response)
    (as_completed later_as_completed : list Z -> list Z) :
  fs (snapshot_path product_id) = None ->
  completion_order as_completed ->
  (forall p, 1 <= p <= 10 ->
     page_failed (scrape_page product product_id requests_get p) = true) ->
  exists saved,
    saved = save_reviews_to_file fs (snapshot_path product_id) [] [] None
    /\ main_load_or_scrape fs product product_id requests_get as_completed
       = (saved, Return (PDict [], PList [], PNone))
    /\ main_load_or_scrape saved product product_id later_requests_get
         later_as_completed
       = (saved, Return (PDict [], PList [], PNone)).
Proof.
  intros Hnone Hperm Hfail.
  assert (Hempty : merged product product_id requests_get
                     (as_completed (range 1 (10 + 1))) empty_corpus = empty_corpus).
  { apply merged_all_failed. intros p Hp. apply Hfail.
    apply (completed_pages as_completed 10 p Hperm). exact Hp. }
  exists (save_reviews_to_file fs (snapshot_path product_id) [] [] None).
  split; [reflexivity|]. split.
  - rewrite (main_without_snapshot fs product product_id requests_get
               as_completed Hnone).
    cbv zeta. rewrite Hempty. reflexivity.
  - unfold main_load_or_scrape. fold (snapshot_path product_id).
    rewrite load_after_save. reflexivity.
Qed.

Lemma failed_scrape_is_kept_witness :
  (no_files (snapshot_path "B0CHWRXH8B") = None
   /\ completion_order in_order
   /\ forall p, 1 <= p <= 10 ->
        page_failed (scrape_page "Widget" "B0CHWRXH8B"
                       (serve (unavailable page_one) (Raise RequestException)) p)
        = true)
  /\ exists saved,
       saved = save_reviews_to_file no_files (snapshot_path "B0CHWRXH8B") [] [] None
       /\ main_load_or_scrape no_files "Widget" "B0CHWRXH8B"
            (serve (unavailable page_one) (Raise RequestException)) in_order
          = (saved, Return (PDict [], PList [], PNone))
       /\ main_load_or_scrape saved "Widget" "B0CHWRXH8B" both_pages in_order
          = (saved, Return (PDict [], PList [], PNone)).
Proof.
  assert (Hfail : forall p, 1 <= p <= 10 ->
            page_failed (scrape_page "Widget" "B0CHWRXH8B"
                           (serve (unavailable page_one) (Raise RequestException)) p)
            = true).
  { intros p Hp.
    assert (Hc : p = 1 \/ p = 2 \/ p = 3 \/ p = 4 \/ p = 5 \/ p = 6 \/ p = 7
                 \/ p = 8 \/ p = 9 \/ p = 10) by lia.
    repeat (destruct Hc as [-> | Hc]; [reflexivity|]). subst p. reflexivity. }
  split; [repeat split; try assumption; apply in_order_is_completion_order|].
  apply (failed_scrape_is_kept no_files "Widget" "B0CHWRXH8B"
           (serve (unavailable page_one) (Raise RequestException)) both_pages
           in_order in_order eq_refl in_order_is_completion_order Hfail).
Defined.

(** X19.  A snapshot that lacks one of the three fields stops [main]: the
    load raises [KeyError] and the run ends with it; no page is asked for
    (whatever the network would answer) and the files are left as they
    were. *)
Theorem incomplete_snapshot_stops_main
    (fs : filesystem) (product product_id : string)
    (requests_get : string -> result response)
    (as_completed : list Z -> list Z)
    (doc : json) (d : list (key * pyval)) :
  fs (snapshot_path product_id) = Some doc ->
  json_load doc = PDict d ->
  dict_get key_eqb (KStr "titles") d = None
  \/ dict_get key_eqb (KStr "reviews") d = None
  \/ dict_get key_eqb (KStr "star_rating") d = None ->
  load_reviews_from_file fs (snapshot_path product_id) = Raise KeyError
  /\ main_load_or_scrape fs product product_id requests_get as_completed
     = (fs, Raise KeyError).
Proof.
  intros Hdoc Hload Hmiss.
  assert (E : load_reviews_from_file fs (snapshot_path product_id) = Raise KeyError).
  { unfold load_reviews_from_file. rewrite Hdoc, Hload. unfold subscript.
    destruct (dict_get key_eqb (KStr "titles") d) as [t|]; [|reflexivity].
    destruct (dict_get key_eqb (KStr "reviews") d) as [r|]; [|reflexivity].
    destruct (dict_get key_eqb (KStr "star_rating") d) as [s|]; [|reflexivity].
    destruct Hmiss as [H|[H|H]]; discriminate H. }
  split; [exact E|].
  unfold main_load_or_scrape. fold (snapshot_path product_id).
  rewrite E. reflexivity.
Qed.

Lemma incomplete_snapshot_stops_main_witness :
  (write_file no_files (snapshot_path "B0CHWRXH8B")
     (JObj [("titles", JObj []); ("reviews", JArr [])])
     (snapshot_path "B0CHWRXH8B")
   = Some (JObj [("titles", JObj []); ("reviews", JArr [])])
   /\ json_load (JObj [("titles", JObj []); ("reviews", JArr [])])
      = PDict [(KStr "titles", PDict []); (KStr "reviews", PList [])]
   /\ dict_get key_eqb (KStr "star_rating")
        [(KStr "titles", PDict []); (KStr "reviews", PList [])] = None)
  /\ main_load_or_scrape
       (write_file no_files (snapshot_path "B0CHWRXH8B")
          (JObj [("titles", JObj []); ("reviews", JArr [])]))
       "Widget" "B0CHWRXH8B" both_pages in_order
     = (write_file no_files (snapshot_path "B0CHWRXH8B")
          (JObj [("titles", JObj []); ("reviews", JArr [])]),
        Raise KeyError).
Proof.
  split; [repeat split; reflexivity|].
  apply (proj2 (incomplete_snapshot_stops_main
                  (write_file no_files (snapshot_path "B0CHWRXH8B")
                     (JObj [("titles", JObj []); ("reviews", JArr [])]))
                  "Widget" "B0CHWRXH8B" both_pages in_order
                  (JObj [("titles", JObj []); ("reviews", JArr [])])
                  [(KStr "titles", PDict []); (KStr "reviews", PList [])]
                  eq_refl eq_refl (or_intror (or_intror eq_refl)))).
Defined.

(* ================================================================== *)
(** * Invariants of the scraped corpus *)
(* ================================================================== *)

Lemma rstrip_idempotent (s : string) : rstrip (rstrip s) = rstrip s.
Proof.
  induction s as [|c s IH]; [reflexivity|].
  simpl. destruct (rstrip s) as [|c' r] eqn:E.
  - destruct (isspace c) eqn:Ec; [reflexivity|]. simpl. rewrite Ec. reflexivity.
  - simpl. simpl in IH. rewrite IH. reflexivity.
Qed.

Lemma lstrip_head (s : string) :
  lstrip s = "" \/ exists c r, lstrip s = String c r /\ isspace c = false.
Proof.
  induction s as [|c s IH]; simpl; [left; reflexivity|].
  destruct (isspace c) eqn:E; [exact IH|].
  right. exists c, s. split; [reflexivity | exact E].
Qed.

Lemma strip_idempotent (s : string) : strip (strip s) = strip s.
Proof.
  unfold strip.
  destruct (lstrip_head s) as [->|[c [r [-> Hc]]]]; [reflexivity|].
  assert (Hl : lstrip (rstrip (String c r)) = rstrip (String c r)).
  { simpl. destruct (rstrip r); [rewrite Hc|]; simpl; rewrite Hc; reflexivity. }
  rewrite Hl. apply rstrip_idempotent.
Qed.

Section DictValues.
Context {K V : Type}.
Variable eqb : K -> K -> bool.

Lemma dict_set_values (P : V -> Prop) (k : K) (v : V) (d : dict K V) :
  P v -> Forall P (map snd d) -> Forall P (map snd (dict_set eqb k v d)).
Proof.
  intros Hv. induction d as [|[k' v'] d IH]; simpl; intros H.
  - constructor; [exact Hv | constructor].
  - inversion H; subst. destruct (eqb k k'); simpl; constructor; auto.
Qed.

Lemma dict_update_values (P : V -> Prop) (other : list (K * V)) :
  forall d : dict K V,
  Forall P (map snd other) -> Forall P (map snd d) ->
  Forall P (map snd (dict_update eqb d other)).
Proof.
  unfold dict_update.
  induction other as [|[k v] other IH]; intros d Ho H; simpl; [exact H|].
  simpl in Ho. inversion Ho; subst.
  apply IH; [assumption|]. apply dict_set_values; assumption.
Qed.

Lemma dict_set_not_empty (k : K) (v : V) (d : dict K V) : dict_set eqb k v d <> [].
Proof. destruct d as [|[k' v'] d]; simpl; [|destruct (eqb k k')]; discriminate. Qed.

Lemma dict_update_not_empty (other : list (K * V)) : forall d : dict K V,
  d <> [] \/ other <> [] -> dict_update eqb d other <> [].
Proof.
  unfold dict_update.
  induction other as [|[k v] other IH]; intros d H; simpl.
  - destruct H as [H|H]; [exact H | contradiction].
  - apply IH. left. apply dict_set_not_empty.
Qed.

Lemma dict_get_value (eqb_eq : forall a b, eqb a b = true <-> a = b)
    (k : K) (v : V) (d : dict K V) :
  dict_get eqb k d = Some v -> In v (map snd d).
Proof.
  induction d as [|[k' v'] d IH]; simpl; [discriminate|].
  destruct (eqb k k'); intros H.
  - inversion H. left. reflexivity.
  - right. apply IH. exact H.
Qed.
End DictValues.

Lemma title_text_no_line_break (text title : string) :
  title_text text = Return title -> contains newline title = false.
Proof.
  unfold title_text, index. fold newline.
  destruct (split_cases newline (strip text)) as [[_ Hs]|[a [r [_ [_ Hsp]]]]].
  - rewrite Hs. discriminate.
  - rewrite Hsp. simpl.
    destruct (split_cases newline r) as [[Hc Hs']|[b [r' [_ [Hc Hsp']]]]].
    + rewrite Hs'. intros H. inversion H. subst. exact Hc.
    + rewrite Hsp'. intros H. inversion H. subst. exact Hc.
Qed.

Lemma mapM_titles_values (items : list (Z * string)) : forall bs,
  mapM (fun it => Py.bind (title_text (snd it)) (fun t => Return (fst it + 1, t)))
       items = Return bs ->
  Forall (fun t => contains newline t = false) (map snd bs).
Proof.
  induction items as [|[i x] items IH]; simpl; intros bs H.
  - inversion H. constructor.
  - destruct (title_text x) as [t|e] eqn:Ex; simpl in H; [|discriminate].
    destruct (mapM _ items) as [bs'|e]; [|discriminate].
    inversion H; subst. simpl.
    constructor; [apply (title_text_no_line_break x t Ex) | apply IH; reflexivity].
Qed.

Section CleanCorpus.
Variables product product_id : string.
Variable requests_get : string -> result response.

Local Notation scrape_page :=
  (ReviewScraper.scrape_page product product_id requests_get).
Local Notation run := (merged product product_id requests_get).

Lemma merge_future_clean (acc : corpus) (p : Z) :
  clean acc -> clean (merge_future acc (scrape_page p)).
Proof.
  intros [Hr [Ht [Hs He]]].
  destruct (scrape_page p) as [[[[q pt] pr] star]|e] eqn:E;
    [|exact (conj Hr (conj Ht (conj Hs He)))].
  destruct pt as [pt|].
  2:{ apply scrape_page_none in E. destruct E as [-> ->].
      exact (conj Hr (conj Ht (conj Hs He))). }
  apply scrape_page_inv in E.
  destruct E as [resp [_ [_ [-> [Htit [-> Hstar]]]]]].
  assert (Hvalues : Forall (fun t => contains newline t = false) (map snd pt)).
  { unfold review_titles_of in Htit.
    destruct (mapM _ (enumerate 0 (review_title (content resp)))) as [items|e] eqn:Em;
      simpl in Htit; [|discriminate].
    inversion Htit as [Hpt].
    apply (dict_update_values Z.eqb (fun t => contains newline t = false) items []).
    - apply (mapM_titles_values _ _ Em).
    - constructor. }
  assert (Hglobal : Forall (fun t => contains newline t = false)
                      (map snd (global_titles p pt))).
  { unfold global_titles.
    apply (dict_update_values key_eqb (fun t => contains newline t = false)
             (map (fun it => (KInt (fst it + (p - 1) * 10), snd it)) pt) []).
    - rewrite map_map. simpl. exact Hvalues.
    - constructor. }
  assert (Hbodies : Forall (fun r => strip r = r)
                      (map strip (review_body (content resp)))).
  { apply Forall_forall. intros r Hin. apply in_map_iff in Hin.
    destruct Hin as [b [<- _]]. apply strip_idempotent. }
  assert (Hrating : truthy_str star = true ->
                    forall s, star = Some s -> strip s = s /\ s <> "").
  { intros Htruthy s Heq. subst star. destruct (p =? 1); [|discriminate].
    destruct (rating_out_of_text (content resp)) as [text|]; inversion Heq; subst.
    - split; [apply strip_idempotent|]. intros Hempty.
      rewrite Hempty in Htruthy. discriminate.
    - split; [reflexivity | discriminate]. }
  assert (Hstar' : forall acc1,
            (forall s, product_star_rating acc1 = Some s -> strip s = s /\ s <> "") ->
            forall s,
              product_star_rating
                (if truthy_str star && (p =? 1)
                 then {| titles := titles acc1; reviews := reviews acc1;
                         product_star_rating := star |}
                 else acc1) = Some s -> strip s = s /\ s <> "").
  { intros acc1 H1 s. destruct (truthy_str star) eqn:Et; simpl.
    - destruct (p =? 1); simpl; [apply (Hrating eq_refl) | apply H1].
    - apply H1. }
  simpl merge_future.
  destruct pt as [|x pt'] eqn:Ept;
    [|destruct (map strip (review_body (content resp))) as [|y pr'] eqn:Epr].
  - split; [|split; [|split]].
    + destruct (truthy_str star && (p =? 1)); exact Hr.
    + destruct (truthy_str star && (p =? 1)); exact Ht.
    + apply (Hstar' acc Hs).
    + destruct (truthy_str star && (p =? 1)); exact He.
  - split; [|split; [|split]].
    + destruct (truthy_str star && (p =? 1)); exact Hr.
    + destruct (truthy_str star && (p =? 1)); exact Ht.
    + apply (Hstar' acc Hs).
    + destruct (truthy_str star && (p =? 1)); exact He.
  - split; [|split; [|split]].
    + destruct (truthy_str star && (p =? 1)); simpl;
        (apply Forall_app; split; [exact Hr | exact Hbodies]).
    + destruct (truthy_str star && (p =? 1)); simpl;
        (apply (dict_update_values key_eqb); [exact Hglobal | exact Ht]).
    + intros s Hsome. destruct (truthy_str star) eqn:Et; simpl in Hsome.
      * destruct (p =? 1); simpl in Hsome;
          [apply (Hrating eq_refl s Hsome) | apply Hs; exact Hsome].
      * apply Hs. exact Hsome.
    + assert (Hne : dict_update key_eqb (titles acc) (global_titles p (x :: pt')) <> []).
      { apply dict_update_not_empty. right. unfold global_titles, dict_of_items.
        change (dict_update key_eqb []
                  (map (fun it => (KInt (fst it + (p - 1) * 10), snd it)) (x :: pt'))
                <> []).
        apply dict_update_not_empty. right. discriminate. }
      destruct (truthy_str star && (p =? 1)); simpl; split; intros H;
        try contradiction;
        destruct (reviews acc); discriminate H.
Qed.

Lemma merged_clean (order : list Z) : forall acc, clean acc -> clean (run order acc).
Proof.
  induction order as [|p order IH]; intros acc H; [exact H|].
  rewrite merged_cons. apply IH. apply merge_future_clean. exact H.
Qed.
End CleanCorpus.

(** X20.  Whatever the pages answer and in whatever order, the corpus has
    titles exactly when it has reviews: a page adds to both or to neither. *)
Theorem titles_and_reviews_go_together
    (product product_id : string) (requests_get : string -> result response)
    (as_completed : list Z -> list Z) (total_pages : Z) :
  exists c,
    scrape_reviews_concurrently product product_id requests_get
      as_completed total_pages = Return c
    /\ (titles c = [] <-> reviews c = []).
Proof.
  eexists. split; [apply scrape_is_merged|].
  apply (merged_clean product product_id requests_get
           (as_completed (range 1 (total_pages + 1))) empty_corpus).
  repeat split; try constructor; try discriminate; reflexivity.
Qed.

(** X21.  The texts of the corpus are trimmed: stripping a review of the
    corpus again changes nothing, no title holds a line break, and the
    rating, when there is one, is a stripped, non-empty string. *)
Theorem corpus_texts_are_trimmed
    (product product_id : string) (requests_get : string -> result response)
    (as_completed : list Z -> list Z) (total_pages : Z) :
  exists c,
    scrape_reviews_concurrently product product_id requests_get
      as_completed total_pages = Return c
    /\ Forall (fun r => strip r = r) (reviews c)
    /\ (forall k t, dict_get key_eqb k (titles c) = Some t ->
                    contains newline t = false)
    /\ (forall s, product_star_rating c = Some s -> strip s = s /\ s <> "").
Proof.
  eexists. split; [apply scrape_is_merged|].
  destruct (merged_clean product product_id requests_get
              (as_completed (range 1 (total_pages + 1))) empty_corpus)
    as [Hr [Ht [Hs _]]].
  { repeat split; try constructor; try discriminate; reflexivity. }
  split; [exact Hr|]. split; [|exact Hs].
  intros k t Hk. apply (dict_get_value key_eqb key_eqb_eq) in Hk.
  rewrite Forall_forall in Ht. apply Ht. exact Hk.
Qed.
